(** * tour_chatbot: the AI orchestration core of [app1.py]

    A shallow embedding of the structured itinerary generator
    ([generate_student_itinerary]) and of the chat page
    ([render_chat_page]) of [src/app1.py], with the library calls they
    rely on ([json.loads], [st.write_stream], the Gemini client) modelled
    next to them, followed by the properties checked against the
    specification. *)

From Stdlib Require Import String Ascii List ZArith Lia Bool PeanoNat DecimalString.
Import ListNotations.
Open Scope string_scope.
Open Scope nat_scope.
Set Warnings "-register-all".

(** ** Python strings

    A Python [str] is modelled as a Rocq [string] holding its UTF-8
    bytes.  Positions reported by the JSON decoder count characters, so
    continuation bytes are not counted. *)
Module PyStr.

Definition dquote : ascii := ascii_of_nat 34.
Definition newline : ascii := ascii_of_nat 10.

(** [str(n)] for a non-negative [int]. *)
Definition str_of_nat (n : nat) : string := NilZero.string_of_uint (Nat.to_uint n).

(** [str(z)] for an [int]. *)
Definition str_of_Z (z : Z) : string := NilZero.string_of_int (Z.to_int z).

(** Truth value of a [str]: the empty string is falsy. *)
Definition truthy (s : string) : bool :=
  match s with EmptyString => false | String _ _ => true end.

Definition is_continuation (c : ascii) : bool :=
  (128 <=? nat_of_ascii c) && (nat_of_ascii c <? 192).

(** Index of the character after [c], when [c] sits at index [idx]. *)
Definition advance (c : ascii) (idx : nat) : nat :=
  if is_continuation c then idx else S idx.

Fixpoint drop (n : nat) (s : string) : string :=
  match n, s with
  | S n', String _ rest => drop n' rest
  | _, _ => s
  end.

(** UTF-8 bytes of [chr(n)]; a lone surrogate keeps its three-byte form. *)
Definition chr (n : N) : string :=
  let b (k : N) := ascii_of_N k in
  (if n <? 128 then String (b n) ""
   else if n <? 2048 then
     String (b (192 + n / 64)) (String (b (128 + n mod 64)) "")
   else if n <? 65536 then
     String (b (224 + n / 4096))
       (String (b (128 + (n / 64) mod 64)) (String (b (128 + n mod 64)) ""))
   else
     String (b (240 + n / 262144))
       (String (b (128 + (n / 4096) mod 64))
         (String (b (128 + (n / 64) mod 64)) (String (b (128 + n mod 64)) ""))))%N.

End PyStr.

(** ** [json.loads]

    The decoder of Python's standard [json] module, after
    [json/decoder.py] and [json/scanner.py] (CPython 3.11, default
    decoder: strict, no hooks).  A [float] is kept as the literal it was
    read from: [PyFloat lit] stands for [float(lit)], binary rounding is
    not modelled.  Interpreter resource limits (recursion depth, the
    digit limit of [int]) are not modelled either. *)
Module Json.
Import PyStr.

Inductive pyvalue : Type :=
| PyNone
| PyBool (b : bool)
| PyInt (z : Z)
| PyFloat (literal : string)
| PyStr (s : string)
| PyList (items : list pyvalue)
| PyDict (pairs : list (string * pyvalue)).

(** [d[k] = v] on a dict kept in insertion order. *)
Fixpoint dict_set (d : list (string * pyvalue)) (k : string) (v : pyvalue)
  : list (string * pyvalue) :=
  match d with
  | [] => [(k, v)]
  | (k', v') :: d' =>
      if String.eqb k' k then (k', v) :: d' else (k', v') :: dict_set d' k v
  end.

(** [dict(pairs)]: a later pair with the same key overwrites the value. *)
Definition dict (pairs : list (string * pyvalue)) : list (string * pyvalue) :=
  fold_left (fun d kv => dict_set d (fst kv) (snd kv)) pairs [].

(** [d.get(k)]. *)
Fixpoint dict_get (d : list (string * pyvalue)) (k : string) : option pyvalue :=
  match d with
  | [] => None
  | (k', v) :: d' => if String.eqb k' k then Some v else dict_get d' k
  end.

Inductive scan_error : Type :=
| StopIteration (idx : nat)
| JSONDecodeError (msg : string) (pos : nat)
| OutOfFuel.

(** A scanner returns the value, the text left and its index, or raises. *)
Definition scan (A : Type) : Type := (A * (string * nat)) + scan_error.

Definition is_ws (c : ascii) : bool :=
  ((c =? " ") || (c =? "009") || (c =? "010") || (c =? "013"))%char.

(** [WHITESPACE.match(s, idx).end()]. *)
Fixpoint skip_ws (s : string) (idx : nat) : string * nat :=
  match s with
  | String c rest => if is_ws c then skip_ws rest (S idx) else (s, idx)
  | EmptyString => (s, idx)
  end.

Definition is_digit (c : ascii) : bool :=
  (48 <=? nat_of_ascii c) && (nat_of_ascii c <=? 57).

Fixpoint take_digits (s : string) : string * string :=
  match s with
  | String c rest =>
      if is_digit c
      then let '(ds, r) := take_digits rest in (String c ds, r)
      else (EmptyString, s)
  | EmptyString => (EmptyString, s)
  end.

(** Group 1 of [NUMBER_RE]: an optional minus sign, then a single zero
    or a digit from 1 to 9 followed by any digits. *)
Definition match_integer (s : string) : option (string * string) :=
  let '(sign, body) :=
    match s with
    | String c rest => if (c =? "-")%char then ("-", rest) else ("", s)
    | EmptyString => ("", s)
    end in
  match body with
  | String c rest =>
      if (c =? "0")%char then Some (sign ++ "0", rest)
      else if is_digit c
      then let '(ds, r) := take_digits body in Some (sign ++ ds, r)
      else None
  | EmptyString => None
  end.

(** Group 2 of [NUMBER_RE]: optionally, a dot and at least one digit. *)
Definition match_frac (s : string) : string * string :=
  match s with
  | String c rest =>
      if (c =? ".")%char then
        match take_digits rest with
        | (EmptyString, _) => ("", s)
        | (ds, r) => (String c ds, r)
        end
      else ("", s)
  | EmptyString => ("", s)
  end.

(** Group 3 of [NUMBER_RE]: optionally, [e] or [E], an optional sign
    and at least one digit. *)
Definition match_exp (s : string) : string * string :=
  match s with
  | String c rest =>
      if ((c =? "e") || (c =? "E"))%char then
        let '(sign, body) :=
          match rest with
          | String c' rest' =>
              if ((c' =? "-") || (c' =? "+"))%char
              then (String c' "", rest') else ("", rest)
          | EmptyString => ("", rest)
          end in
        match take_digits body with
        | (EmptyString, _) => ("", s)
        | (ds, r) => (String c (sign ++ ds), r)
        end
      else ("", s)
  | EmptyString => ("", s)
  end.

Definition digit_val (c : ascii) : Z := Z.of_nat (nat_of_ascii c) - 48.

Fixpoint digits_val (s : string) (acc : Z) : Z :=
  match s with
  | String c rest => digits_val rest (10 * acc + digit_val c)
  | EmptyString => acc
  end.

(** [int(integer)] on a match of group 1. *)
Definition parse_int (integer : string) : Z :=
  match integer with
  | String c rest =>
      if (c =? "-")%char then - digits_val rest 0 else digits_val integer 0
  | EmptyString => 0
  end.

Definition hex_val (c : ascii) : option N :=
  let n := N_of_ascii c in
  (if (48 <=? n) && (n <=? 57) then Some (n - 48)
   else if (65 <=? n) && (n <=? 70) then Some (n - 55)
   else if (97 <=? n) && (n <=? 102) then Some (n - 87)
   else None)%N.

Definition hex4 (h1 h2 h3 h4 : ascii) : option N :=
  match hex_val h1, hex_val h2, hex_val h3, hex_val h4 with
  | Some a, Some b, Some c, Some d => Some (((a * 16 + b) * 16 + c) * 16 + d)%N
  | _, _, _, _ => None
  end.

(** The table [BACKSLASH]. *)
Definition BACKSLASH (esc : ascii) : option ascii :=
  if (esc =? dquote)%char then Some dquote
  else if (esc =? "\")%char then Some "\"%char
  else if (esc =? "/")%char then Some "/"%char
  else if (esc =? "b")%char then Some "008"%char
  else if (esc =? "f")%char then Some "012"%char
  else if (esc =? "n")%char then Some "010"%char
  else if (esc =? "r")%char then Some "013"%char
  else if (esc =? "t")%char then Some "009"%char
  else None.

Definition is_high_surrogate (n : N) : bool := ((55296 <=? n) && (n <=? 56319))%N.
Definition is_low_surrogate (n : N) : bool := ((56320 <=? n) && (n <=? 57343))%N.

Definition join_surrogates (hi lo : N) : N :=
  (65536 + ((hi - 55296) * 1024 + (lo - 56320)))%N.

(** [scanstring(s, end, strict=True)]: [s] starts after the opening
    quote, which sits at index [begin].  A [\uXXXX] escape needs a
    character after it; a high surrogate followed by a [\uXXXX] low
    surrogate (and a character after it) is joined with it. *)
Fixpoint scanstring (s : string) (idx begin : nat) (acc : string) : scan string :=
  match s with
  | EmptyString => inr (JSONDecodeError "Unterminated string starting at" begin)
  | String c rest =>
      if (c =? dquote)%char then inl (acc, (rest, S idx))
      else if (c =? "\")%char then
        match rest with
        | EmptyString => inr (JSONDecodeError "Unterminated string starting at" begin)
        | String esc rest2 =>
            if (esc =? "u")%char then
              match rest2 with
              | String h1 (String h2 (String h3 (String h4 (String c5 rest3 as after)))) =>
                  match hex4 h1 h2 h3 h4 with
                  | None => inr (JSONDecodeError "Invalid \uXXXX escape" (S idx))
                  | Some uni =>
                      let single := scanstring after (idx + 6) begin (acc ++ chr uni) in
                      match rest3 with
                      | String u (String g1 (String g2 (String g3 (String g4
                          (String _ _ as after2))))) =>
                          if is_high_surrogate uni && (c5 =? "\")%char && (u =? "u")%char
                          then
                            match hex4 g1 g2 g3 g4 with
                            | None => inr (JSONDecodeError "Invalid \uXXXX escape" (idx + 7))
                            | Some uni2 =>
                                if is_low_surrogate uni2
                                then scanstring after2 (idx + 12) begin
                                       (acc ++ chr (join_surrogates uni uni2))
                                else single
                            end
                          else single
                      | _ => single
                      end
                  end
              | _ => inr (JSONDecodeError "Invalid \uXXXX escape" (S idx))
              end
            else
              match BACKSLASH esc with
              | Some ch => scanstring rest2 (idx + 2) begin (acc ++ String ch "")
              | None => inr (JSONDecodeError "Invalid \escape" idx)
              end
        end
      else if nat_of_ascii c <? 32
      then inr (JSONDecodeError "Invalid control character at" idx)
      else scanstring rest (advance c idx) begin (acc ++ String c "")
  end.

(** The number at the head of [s], by [NUMBER_RE]: an [int] when
    neither fraction nor exponent is there, a [float] otherwise. *)
Definition match_number (s : string) (idx : nat) : option (pyvalue * (string * nat)) :=
  match match_integer s with
  | None => None
  | Some (integer, r1) =>
      let '(frac, r2) := match_frac r1 in
      let '(exp, r3) := match_exp r2 in
      let lit := integer ++ frac ++ exp in
      Some (if truthy frac || truthy exp then PyFloat lit else PyInt (parse_int integer),
            (r3, idx + String.length lit))
  end.

Definition expecting_value (e : scan_error) : scan_error :=
  match e with
  | StopIteration idx => JSONDecodeError "Expecting value" idx
  | _ => e
  end.

(** [scan_once], with [JSONArray] and [JSONObject] entered after their
    opening bracket.  [array_loop] stands before an item, [object_loop]
    after the opening quote of a key.  [fuel] bounds the calls; the
    decoder starts with more than the text can use. *)
Fixpoint scan_once (fuel : nat) (s : string) (idx : nat) {struct fuel} : scan pyvalue :=
  match fuel with
  | O => inr OutOfFuel
  | S fuel' =>
      match s with
      | EmptyString => inr (StopIteration idx)
      | String nextchar rest =>
          if (nextchar =? dquote)%char then
            match scanstring rest (S idx) idx "" with
            | inl (str, cur) => inl (PyStr str, cur)
            | inr e => inr e
            end
          else if (nextchar =? "{")%char then
            let '(r, i) := skip_ws rest (S idx) in
            match r with
            | String c r' =>
                if (c =? "}")%char then inl (PyDict [], (r', S i))
                else if (c =? dquote)%char then object_loop fuel' r' (S i) []
                else inr (JSONDecodeError
                            "Expecting property name enclosed in double quotes" i)
            | EmptyString =>
                inr (JSONDecodeError
                       "Expecting property name enclosed in double quotes" i)
            end
          else if (nextchar =? "[")%char then
            let '(r, i) := skip_ws rest (S idx) in
            match r with
            | String c r' =>
                if (c =? "]")%char then inl (PyList [], (r', S i))
                else array_loop fuel' r i []
            | EmptyString => array_loop fuel' r i []
            end
          else if prefix "null" s then inl (PyNone, (drop 4 s, idx + 4))
          else if prefix "true" s then inl (PyBool true, (drop 4 s, idx + 4))
          else if prefix "false" s then inl (PyBool false, (drop 5 s, idx + 5))
          else
            match match_number s idx with
            | Some res => inl res
            | None =>
                if prefix "NaN" s then inl (PyFloat "NaN", (drop 3 s, idx + 3))
                else if prefix "Infinity" s
                then inl (PyFloat "Infinity", (drop 8 s, idx + 8))
                else if prefix "-Infinity" s
                then inl (PyFloat "-Infinity", (drop 9 s, idx + 9))
                else inr (StopIteration idx)
            end
      end
  end

with array_loop (fuel : nat) (s : string) (idx : nat) (values : list pyvalue)
  {struct fuel} : scan pyvalue :=
  match fuel with
  | O => inr OutOfFuel
  | S fuel' =>
      match scan_once fuel' s idx with
      | inr e => inr (expecting_value e)
      | inl (value, (r, i)) =>
          let values := (values ++ [value])%list in
          let '(r, i) := skip_ws r i in
          match r with
          | String c r' =>
              if (c =? "]")%char then inl (PyList values, (r', S i))
              else if (c =? ",")%char then
                let '(r, i) := skip_ws r' (S i) in array_loop fuel' r i values
              else inr (JSONDecodeError "Expecting ',' delimiter" i)
          | EmptyString => inr (JSONDecodeError "Expecting ',' delimiter" i)
          end
      end
  end

with object_loop (fuel : nat) (s : string) (idx : nat) (pairs : list (string * pyvalue))
  {struct fuel} : scan pyvalue :=
  match fuel with
  | O => inr OutOfFuel
  | S fuel' =>
      match scanstring s idx (idx - 1) "" with
      | inr e => inr e
      | inl (key, (r, i)) =>
          let '(r, i) := skip_ws r i in
          match r with
          | String c r' =>
              if (c =? ":")%char then
                let '(r, i) := skip_ws r' (S i) in
                match scan_once fuel' r i with
                | inr e => inr (expecting_value e)
                | inl (value, (r, i)) =>
                    let pairs := (pairs ++ [(key, value)])%list in
                    let '(r, i) := skip_ws r i in
                    match r with
                    | String c r' =>
                        if (c =? "}")%char then inl (PyDict (dict pairs), (r', S i))
                        else if (c =? ",")%char then
                          let '(r, i) := skip_ws r' (S i) in
                          match r with
                          | String c r' =>
                              if (c =? dquote)%char then object_loop fuel' r' (S i) pairs
                              else inr (JSONDecodeError
                                     "Expecting property name enclosed in double quotes" i)
                          | EmptyString =>
                              inr (JSONDecodeError
                                     "Expecting property name enclosed in double quotes" i)
                          end
                        else inr (JSONDecodeError "Expecting ',' delimiter" i)
                    | EmptyString => inr (JSONDecodeError "Expecting ',' delimiter" i)
                    end
                end
              else inr (JSONDecodeError "Expecting ':' delimiter" i)
          | EmptyString => inr (JSONDecodeError "Expecting ':' delimiter" i)
          end
      end
  end.

(** A scanner result that is not out of fuel and, when it is a value,
    has read at least one character of [s]. *)
Definition consumes {A : Type} (s : string) (r : scan A) : Prop :=
  match r with
  | inl (_, (rest, _)) => String.length rest < String.length s
  | inr OutOfFuel => False
  | inr _ => True
  end.

(** [JSONDecoder.decode]: one value between optional whitespace. *)
Definition decode (s : string) : pyvalue + scan_error :=
  let '(r, i) := skip_ws s 0 in
  match scan_once (2 * String.length s + 2) r i with
  | inr e => inr (expecting_value e)
  | inl (obj, (r, i)) =>
      let '(r, i) := skip_ws r i in
      match r with
      | EmptyString => inl obj
      | String _ _ => inr (JSONDecodeError "Extra data" i)
      end
  end.

(** Line and column of the character at index [pos] of [doc]. *)
Fixpoint linecol (doc : string) (pos lineno colno : nat) : nat * nat :=
  match doc, pos with
  | String c rest, S pos' =>
      if is_continuation c then linecol rest pos lineno colno
      else if (c =? newline)%char then linecol rest pos' (S lineno) 1
      else linecol rest pos' lineno (S colno)
  | _, _ => (lineno, colno)
  end.

(** [str(e)] for [e = JSONDecodeError(msg, doc, pos)]. *)
Definition errmsg (msg doc : string) (pos : nat) : string :=
  let '(lineno, colno) := linecol doc pos 1 1 in
  msg ++ ": line " ++ str_of_nat lineno ++ " column " ++ str_of_nat colno
      ++ " (char " ++ str_of_nat pos ++ ")".

(** What [json.loads(s)] does: it returns a value, raises
    [json.JSONDecodeError], or raises another exception; [str(e)] is
    kept for both. *)
Inductive loads_result : Type :=
| Loaded (v : pyvalue)
| RaisedJSONDecodeError (e : string)
| RaisedOther (e : string).

Definition utf8_bom : string :=
  String (ascii_of_nat 239) (String (ascii_of_nat 187) (String (ascii_of_nat 191) "")).

(** [json.loads(s)], where [s] is a [str] or [None].  The decoder
    never runs out of fuel ([decode_total] below), so the last case
    does not occur. *)
Definition loads (s : option string) : loads_result :=
  match s with
  | None => RaisedOther "the JSON object must be str, bytes or bytearray, not NoneType"
  | Some doc =>
      if prefix utf8_bom doc
      then RaisedJSONDecodeError
             (errmsg "Unexpected UTF-8 BOM (decode using utf-8-sig)" doc 0)
      else
        match decode doc with
        | inl v => Loaded v
        | inr (JSONDecodeError msg pos) => RaisedJSONDecodeError (errmsg msg doc pos)
        | inr (StopIteration pos) => RaisedJSONDecodeError (errmsg "Expecting value" doc pos)
        | inr OutOfFuel => RaisedOther "maximum recursion depth exceeded"
        end
  end.

End Json.


(** ** The provider client ([google.genai])

    The provider is outside the program: a client is given by what its
    two calls do.  [generate_content] may answer the same request
    differently each time, so it also receives the number of earlier
    calls of the run. *)
Module Genai.

(** [types.Type], the members the schema uses. *)
Inductive SchemaType : Type := ARRAY | OBJECT | INTEGER | STRING | NUMBER.

(** [types.Schema], the fields the source sets; [None] is a field left
    unset. *)
Inductive Schema : Type :=
| mkSchema (type : SchemaType) (description : option string) (items : option Schema)
    (properties : option (list (string * Schema))) (required : option (list string)).

(** [types.GenerateContentConfig]. *)
Record GenerateContentConfig : Type := {
  system_instruction : string;
  response_mime_type : option string;
  response_schema : option Schema
}.

(** [Part.from_text(text=...)] and [Content(role=..., parts=...)]. *)
Record Part : Type := { part_text : string }.
Record Content : Type := { content_role : string; parts : list Part }.

(** One call of [models.generate_content] followed by the read of
    [response.text]: an [Exception] with its [str(e)], or a response
    whose text is a [str] or [None]. *)
Inductive api_outcome : Type :=
| Raised (e : string)
| Response (text : option string).

(** A chunk of a streamed response; [chunk.text] is a [str] or [None]. *)
Record Chunk : Type := { chunk_text : option string }.

(** One call of [models.generate_content_stream]: it raises at once, or
    returns a stream that yields [chunks] and then ends, normally or by
    raising [failure]. *)
Inductive stream_outcome : Type :=
| StreamRaised (e : string)
| Streamed (chunks : list Chunk) (failure : option string).

Record Client : Type := {
  generate_content :
    nat -> string -> list string -> GenerateContentConfig -> api_outcome;
  generate_content_stream :
    string -> list Content -> GenerateContentConfig -> stream_outcome
}.

End Genai.

(** ** Effects

    What a run does to the outside world, in order: requests to the
    provider, [time.sleep], and what is handed to Streamlit. *)
Module Effects.
Import Genai.

Inductive event : Type :=
| EGenerateContent (model : string) (contents : list string)
    (config : GenerateContentConfig)
| EGenerateContentStream (model : string) (contents : list Content)
    (config : GenerateContentConfig)
| ESleep (delay : Z)
| EStWarning (body : string)
| EStError (body : string)
| EStChatWrite (name avatar body : string)
| EStStreamChunk (chunk : string).

(** A computation that returns [A] and leaves a trace of events. *)
Definition Run (A : Type) : Type := A * list event.

Definition ret {A : Type} (a : A) : Run A := (a, []).

Definition bind {A B : Type} (m : Run A) (k : A -> Run B) : Run B :=
  let '(a, t1) := m in let '(b, t2) := k a in (b, t1 ++ t2)%list.

Definition emit (e : event) : Run unit := (tt, [e]).

Definition result {A : Type} (m : Run A) : A := fst m.
Definition trace {A : Type} (m : Run A) : list event := snd m.

Fixpoint for_each {A : Type} (f : A -> Run unit) (l : list A) : Run unit :=
  match l with
  | [] => ret tt
  | x :: l' => bind (f x) (fun _ => for_each f l')
  end.

Definition is_request (e : event) : bool :=
  match e with
  | EGenerateContent _ _ _ | EGenerateContentStream _ _ _ => true
  | _ => false
  end.

(** The [time.sleep] delays of a trace, in order. *)
Definition sleeps (t : list event) : list Z :=
  flat_map (fun e => match e with ESleep d => [d] | _ => [] end) t.

(** The number of requests sent to the provider. *)
Definition requests (t : list event) : nat := length (filter is_request t).

End Effects.

Declare Scope run_scope.
Delimit Scope run_scope with run.
Notation "x <- m ;; k" := (Effects.bind m (fun x => k))
  (at level 61, m at next level, right associativity) : run_scope.
Notation "m ;;; k" := (Effects.bind m (fun _ => k))
  (at level 61, right associativity) : run_scope.

(** ** [app1.py]: configuration and the structured generator *)
Module App.
Import PyStr Json Genai Effects.
Local Open Scope run_scope.

(** [API_KEY = os.environ.get("GEMINI_API_KEY", fallback)]; the fallback
    literal of the source is the argument [fallback]. *)
Definition API_KEY (environ_value : option string) (fallback : string) : string :=
  match environ_value with
  | Some v => v
  | None => fallback
  end.

Definition MAX_RETRIES : nat := 5.
Definition INITIAL_DELAY : Z := 1.

(** The module-level initialisation of [GEMINI_CLIENT]: [genai_Client]
    is the constructor [genai.Client(api_key=...)], which returns a
    client or raises. *)
Definition init_GEMINI_CLIENT (api_key : string) (genai_Client : string -> Client + string)
  : Run (option Client) :=
  if truthy api_key then
    match genai_Client api_key with
    | inl client => ret (Some client)
    | inr e =>
        emit (EStWarning ("Error initializing Gemini client: " ++ e
                          ++ ". AI features will be disabled.")) ;;;
        ret None
    end
  else ret None.

Definition ITINERARY_SCHEMA : Schema :=
  let leaf (type : SchemaType) (description : string) : Schema :=
    mkSchema type (Some description) None None None in
  mkSchema ARRAY (Some "A list of daily itinerary plans.")
    (Some (mkSchema OBJECT None None
      (Some
        [ ("day", leaf INTEGER "The day number, starting from 1.");
          ("theme", leaf STRING
             "A short, catchy theme for the day (e.g., 'Historical Walking Tour', 'Cheap Eats Day').");
          ("plan", mkSchema ARRAY (Some "List of activities for the day.")
             (Some (mkSchema OBJECT None None
               (Some
                 [ ("time", leaf STRING
                      "Time slot (e.g., 'Morning', 'Lunch', 'Afternoon', 'Evening').");
                   ("activity", leaf STRING "The specific activity or location.");
                   ("estimated_cost_inr", leaf NUMBER
                      "Estimated cost for the activity in Indian Rupee (INR) (use 0 for free activities).") ])
               (Some ["time"; "activity"; "estimated_cost_inr"])))
             None None);
          ("efficiency_tip", leaf STRING
             "A practical, budget-focused tip for minimizing travel time or cost, focusing on walking/public transport.") ])
      (Some ["day"; "theme"; "plan"; "efficiency_tip"])))
    None None.

Definition itinerary_system_instruction : string :=
  "You are a World-Class Budget Student Travel Expert and Route Planner. "
  ++ "Your goal is to create a detailed, efficient, and fun travel plan for a student with limited funds. "
  ++ "All suggestions MUST prioritize free or low-cost activities (under ₹500 INR). "
  ++ "You must return the response as a valid JSON object matching the provided schema. "
  ++ "Provide specific cost estimates for each activity in **Indian Rupee (INR)**. "
  ++ "For the 'efficiency_tip', focus on grouping nearby locations to minimize travel or suggesting budget public transport passes.".

Definition user_query (destination : string) (days : Z) (interests : string) : string :=
  "Generate a " ++ str_of_Z days ++ "-day travel itinerary for a trip to " ++ destination ++ ". "
  ++ "The total budget is restricted (focus on lowest costs). "
  ++ "The student is interested in: " ++ interests ++ ". "
  ++ "Ensure the plan is efficient to follow, grouping activities by location.".

Definition generation_config : GenerateContentConfig :=
  {| system_instruction := itinerary_system_instruction;
     response_mime_type := Some "application/json";
     response_schema := Some ITINERARY_SCHEMA |}.

Definition success_message : string := "Itinerary generated successfully!".

Definition not_initialized_message : string :=
  "Error: Gemini client is not initialized. Check API Key.".

Definition exhausted_message (last_error : string) : string :=
  "Failed to generate itinerary after multiple retries. Last known error: " ++ last_error.

Definition format_error (attempt : nat) (e : string) : string :=
  "AI response format error (Attempt " ++ str_of_nat (attempt + 1)
  ++ "): Failed to parse JSON response. Details: " ++ e.

Definition connection_error (attempt : nat) (e : string) : string :=
  "Gemini API connection error (Attempt " ++ str_of_nat (attempt + 1) ++ "): " ++ e.

(** The request every attempt sends (lines 90-94). *)
Definition itinerary_request (query : string) : event :=
  EGenerateContent "gemini-2.5-flash" [query] generation_config.

(** How the two [try] blocks of one attempt end (lines 89-103), given
    what the provider did: with the value to return, or with the new
    [last_error].  An exception of [json.loads] other than
    [JSONDecodeError] passes the inner handler and is caught by the
    outer one. *)
Definition attempt_result (attempt : nat) (outcome : api_outcome) : pyvalue + string :=
  match outcome with
  | Raised e => inr (connection_error attempt e)
  | Response text =>
      match loads text with
      | Loaded itinerary_json => inl itinerary_json
      | RaisedJSONDecodeError e => inr (format_error attempt e)
      | RaisedOther e => inr (connection_error attempt e)
      end
  end.

(** The [for attempt in range(MAX_RETRIES)] loop and the final [return],
    for the attempts still to make (lines 88-109). *)
Fixpoint retry_loop (MAX_RETRIES : nat) (INITIAL_DELAY : Z) (client : Client)
  (query : string) (attempts : list nat) (last_error : string)
  : Run (string * pyvalue) :=
  match attempts with
  | [] => ret (exhausted_message last_error, PyNone)
  | attempt :: rest =>
      emit (itinerary_request query) ;;;
      match attempt_result attempt
              (generate_content client attempt "gemini-2.5-flash" [query] generation_config)
      with
      | inl itinerary_json => ret (success_message, itinerary_json)
      | inr last_error =>
          (if attempt <? MAX_RETRIES - 1
           then emit (ESleep (INITIAL_DELAY * 2 ^ Z.of_nat attempt))
           else ret tt) ;;;
          retry_loop MAX_RETRIES INITIAL_DELAY client query rest last_error
      end
  end.

(** [generate_student_itinerary], with the module constants
    [MAX_RETRIES], [INITIAL_DELAY] and [GEMINI_CLIENT] as arguments.  It
    returns the pair (status message, itinerary), where [PyNone] is
    Python's [None]. *)
Definition generate_student_itinerary_with (MAX_RETRIES : nat) (INITIAL_DELAY : Z)
  (GEMINI_CLIENT : option Client) (destination : string) (days : Z) (interests : string)
  : Run (string * pyvalue) :=
  match GEMINI_CLIENT with
  | None => ret (not_initialized_message, PyNone)
  | Some client =>
      retry_loop MAX_RETRIES INITIAL_DELAY client (user_query destination days interests)
        (seq 0 MAX_RETRIES) "Unknown error occurred before first API call."
  end.

(** [generate_student_itinerary] as the source configures it. *)
Definition generate_student_itinerary :=
  generate_student_itinerary_with MAX_RETRIES INITIAL_DELAY.

End App.

(** ** [app1.py]: the chat page *)
Module Chat.
Import PyStr Json Genai Effects.
Local Open Scope run_scope.

(** A message of the history: the dict with the keys [role] and
    [content]. *)
Record ChatMessage : Type := { role : string; content : string }.

(** [st.session_state], restricted to the key [messages], the only one
    the chat page reads or writes (no other function of the source
    touches it).  [None] stands for an absent key. *)
Record SessionState : Type := { messages : option (list ChatMessage) }.

(** The session state of a new session. *)
Definition new_session : SessionState := {| messages := None |}.

Definition greeting : ChatMessage :=
  {| role := "model";
     content := "Hello! I'm a helpful AI assistant. How can I help you plan your next budget trip or answer a general question?" |}.

Definition chat_system_instruction : string :=
  "You are a friendly, helpful AI assistant. You specialize in budget travel, itinerary planning, "
  ++ "and general knowledge. Keep responses concise, supportive, and informative.".

Definition chat_config : GenerateContentConfig :=
  {| system_instruction := chat_system_instruction;
     response_mime_type := None;
     response_schema := None |}.

Definition unavailable_message : string :=
  "🚨 Gemini Chat is unavailable. Check your API Key configuration.".

Definition get_api_contents (history : list ChatMessage) : list Content :=
  map (fun m => {| content_role := role m; parts := [ {| part_text := content m |} ] |})
      history.

(** The generator [(chunk.text for chunk in response_stream if chunk.text)]. *)
Definition chunk_texts (response_stream : list Chunk) : list string :=
  flat_map (fun chunk =>
              match chunk_text chunk with
              | Some t => if truthy t then [t] else []
              | None => []
              end) response_stream.

(** [st.write_stream] on a stream of [str] chunks, after Streamlit's
    implementation: an empty chunk is ignored, any other is shown and
    added to [streamed_response], which is returned at the end. *)
Fixpoint st_write_stream (stream : list string) (streamed_response : string) : Run string :=
  match stream with
  | [] => ret streamed_response
  | chunk :: rest =>
      if truthy chunk
      then emit (EStStreamChunk chunk) ;;; st_write_stream rest (streamed_response ++ chunk)
      else st_write_stream rest streamed_response
  end.

(** [st.write_stream] applied to the generator over the response stream
    (line 366); its value is [full_response]. *)
Definition write_chunks (response_stream : list Chunk) : Run string :=
  st_write_stream (chunk_texts response_stream) "".

(** The [except Exception as e] branch of the turn (lines 371-374). *)
Definition chat_failure (messages : list ChatMessage) (e : string)
  : Run (list ChatMessage) :=
  let error_message := "An error occurred: " ++ e in
  emit (EStError error_message) ;;;
  ret (messages ++ [ {| role := "model"; content := error_message |} ])%list.

(** The loop that displays the history (lines 338-341). *)
Definition display_history (messages : list ChatMessage) : Run unit :=
  for_each (fun msg =>
              let avatar := if (role msg =? "model")%string then "🤖" else "🚶" in
              emit (EStChatWrite (role msg) avatar (content msg)))
           messages.

(** *** The script runner

    Streamlit stops a running script from inside the calls of [st.*]:
    when a rerun or a stop is pending (the user acted on the page, or
    closed it), the call raises [RerunException] or [StopException].
    Both derive from [BaseException], so the handler [except Exception]
    of line 371 does not catch them: the run ends in that call, nothing
    after it is executed, and what was stored in [st.session_state]
    before it stays.

    The display steps of a run are counted in the order of the source.
    A step is a call of [st.*] that leaves no event ([st.header],
    [st.markdown], [st.chat_input], the container
    [st.chat_message("assistant")]), or the calls that show one event:
    a [with st.chat_message(...)] block with its [st.write], one chunk
    shown by [st.write_stream], [st.error].  The calls of the provider
    and of [time.sleep] are no steps: the runner does not stop the
    script in them.

    [StopsAt n]: the runner lets [n] steps through and stops the script
    in the next one; [RunsThrough]: it lets the script run to its end. *)
Inductive script_control : Type :=
| RunsThrough
| StopsAt (n : nat).

(** [steps] calls of [st.*] that leave no event: the control that is
    left after them, or [None] when the script is stopped in one of
    them. *)
Definition st_static (steps : nat) (control : script_control) : option script_control :=
  match control with
  | RunsThrough => Some RunsThrough
  | StopsAt n => if n <? steps then None else Some (StopsAt (n - steps))
  end.

(** A part [m] of the script each event of which is shown by one step:
    its value and the control that is left, or [None] when the script
    is stopped in it; the events are those shown before the stop. *)
Definition st_shown {A : Type} (m : Run A) (control : script_control)
  : Run (option (A * script_control)) :=
  let '(a, t) := m in
  match control with
  | RunsThrough => (Some (a, RunsThrough), t)
  | StopsAt n =>
      if n <? length t then (None, firstn n t)
      else (Some (a, StopsAt (n - length t)), t)
  end.

(** One chat turn: the body of [if prompt := st.chat_input(...)]
    (lines 346-374), on the list held in [st.session_state.messages];
    its value is the list the turn leaves there.  The user message is
    appended first (line 346); when the runner stops the script in a
    later step of the turn, the list stays as it is at that point, and
    no model message is appended. *)
Definition chat_turn (control : script_control) (client : Client)
  (messages : list ChatMessage) (prompt : string) : Run (list ChatMessage) :=
  let messages := (messages ++ [ {| role := "user"; content := prompt |} ])%list in
  shown <- st_shown (emit (EStChatWrite "user" "🚶" prompt)) control ;;
  match shown with
  | None => ret messages
  | Some (_, control) =>
      (* with st.chat_message("assistant", avatar="🤖") *)
      match st_static 1 control with
      | None => ret messages
      | Some control =>
          let contents := get_api_contents messages in
          emit (EGenerateContentStream "gemini-2.5-flash" contents chat_config) ;;;
          match generate_content_stream client "gemini-2.5-flash" contents chat_config with
          | StreamRaised e =>
              handled <- st_shown (chat_failure messages e) control ;;
              match handled with
              | None => ret messages
              | Some (messages, _) => ret messages
              end
          | Streamed chunks failure =>
              written <- st_shown (write_chunks chunks) control ;;
              match written with
              | None => ret messages
              | Some (full_response, control) =>
                  match failure with
                  | None =>
                      ret (messages
                           ++ [ {| role := "model"; content := full_response |} ])%list
                  | Some e =>
                      handled <- st_shown (chat_failure messages e) control ;;
                      match handled with
                      | None => ret messages
                      | Some (messages, _) => ret messages
                      end
                  end
              end
          end
      end
  end.

(** [render_chat_page]: one run of the page under the script runner,
    where [prompt] is what [st.chat_input] returns ([None] when nothing
    was submitted); its value is the session state the run leaves.  The
    static header of the page (lines 307-308) is not recorded. *)
Definition render_chat_page (control : script_control) (GEMINI_CLIENT : option Client)
  (prompt : option string) (session_state : SessionState) : Run SessionState :=
  (* st.header, st.markdown *)
  match st_static 2 control with
  | None => ret session_state
  | Some control =>
      match GEMINI_CLIENT with
      | None =>
          st_shown (emit (EStError unavailable_message)) control ;;; ret session_state
      | Some client =>
          let messages :=
            match messages session_state with
            | None => [greeting]
            | Some messages => messages
            end in
          displayed <- st_shown (display_history messages) control ;;
          match displayed with
          | None => ret {| messages := Some messages |}
          | Some (_, control) =>
              (* st.chat_input *)
              match st_static 1 control with
              | None => ret {| messages := Some messages |}
              | Some control =>
                  match prompt with
                  | Some prompt =>
                      if truthy prompt then
                        messages <- chat_turn control client messages prompt ;;
                        ret {| messages := Some messages |}
                      else ret {| messages := Some messages |}
                  | None => ret {| messages := Some messages |}
                  end
              end
          end
      end
  end.

End Chat.

(** ** The specification's vocabulary

    Notions the specification uses to state its properties.  They follow
    the specification's words; the code has no counterpart for them. *)
Module Spec.
Import PyStr Json Genai Effects.

(** A valid ItineraryRequest: non-empty destination, day count from 1 to
    14, non-empty interests. *)
Definition valid_request (destination : string) (days : Z) (interests : string) : Prop :=
  destination <> "" /\ (1 <= days <= 14)%Z /\ interests <> "".

(** The digits of a float literal before its exponent are all zero. *)
Fixpoint mantissa_zero (lit : string) : bool :=
  match lit with
  | EmptyString => true
  | String c rest =>
      if ((c =? "e") || (c =? "E"))%char then true
      else if ((c =? "0") || (c =? "."))%char then mantissa_zero rest
      else false
  end.

(** A numeric cost that is at least zero; a float is judged by the
    number its literal denotes. *)
Definition nonneg_number (v : pyvalue) : bool :=
  match v with
  | PyInt z => (0 <=? z)%Z
  | PyFloat lit =>
      if (lit =? "NaN")%string then false
      else match lit with
           | String c rest => if (c =? "-")%char then mantissa_zero rest else true
           | EmptyString => false
           end
  | _ => false
  end.

(** An ActivityEntry with its three mandatory fields. *)
Definition well_formed_activity (v : pyvalue) : bool :=
  match v with
  | PyDict d =>
      match dict_get d "time", dict_get d "activity", dict_get d "estimated_cost_inr" with
      | Some (PyStr _), Some (PyStr _), Some cost => nonneg_number cost
      | _, _, _ => false
      end
  | _ => false
  end.

(** An ItineraryDay: positive integer day, text theme, non-empty plan of
    well-formed activities, text tip. *)
Definition well_formed_day (v : pyvalue) : bool :=
  match v with
  | PyDict d =>
      match dict_get d "day", dict_get d "theme", dict_get d "plan",
            dict_get d "efficiency_tip" with
      | Some (PyInt day), Some (PyStr _), Some (PyList (a :: plan)), Some (PyStr _) =>
          (0 <? day)%Z && forallb well_formed_activity (a :: plan)
      | _, _, _, _ => false
      end
  | _ => false
  end.

Definition day_number (v : pyvalue) : option Z :=
  match v with
  | PyDict d => match dict_get d "day" with Some (PyInt day) => Some day | _ => None end
  | _ => None
  end.

Fixpoint all_distinct (l : list (option Z)) : bool :=
  match l with
  | [] => true
  | x :: l' =>
      negb (existsb (fun y => match x, y with
                              | Some a, Some b => (a =? b)%Z
                              | _, _ => false
                              end) l')
      && all_distinct l'
  end.

(** A fully valid Itinerary: a non-empty list of well-formed days with
    unique day numbers. *)
Definition well_formed_itinerary (v : pyvalue) : bool :=
  match v with
  | PyList (d :: ds) =>
      forallb well_formed_day (d :: ds) && all_distinct (map day_number (d :: ds))
  | _ => false
  end.

(** The events of a run that makes [n] attempts, the first with index
    [i]: a request per attempt and, between attempt [j] and attempt
    [j + 1], a delay of [base * 2 ^ j]; nothing after the last attempt. *)
Fixpoint backoff_schedule (base : Z) (request : event) (i n : nat) : list event :=
  match n with
  | 0 => []
  | S n' =>
      request ::
      match n' with
      | 0 => []
      | S _ => ESleep (base * 2 ^ Z.of_nat i) :: backoff_schedule base request (S i) n'
      end
  end.

(** The delay the specification puts between attempt [i] and [i + 1]. *)
Definition backoff_delay (base : Z) (i : nat) : Z := (base * 2 ^ Z.of_nat i)%Z.

(** What the provider does on attempt [k] of a run of the generator. *)
Definition provider_outcome (client : Client) (query : string) (k : nat) : api_outcome :=
  generate_content client k "gemini-2.5-flash" [query] App.generation_config.

(** Attempt [k] fails in the code's sense: it ends with a recorded error. *)
Definition attempt_fails (client : Client) (query : string) (k : nat) : Prop :=
  exists e, App.attempt_result k (provider_outcome client query k) = inr e.

(** The most recent error description when the attempts [i], ...,
    [i + n - 1] have all failed and [last_error] was recorded before. *)
Definition most_recent_error (client : Client) (query : string) (i n : nat)
  (last_error e : string) : Prop :=
  match n with
  | 0 => e = last_error
  | S m => App.attempt_result (i + m) (provider_outcome client query (i + m)) = inr e
  end.

(** A DecodeError in the specification's sense: the text is not valid
    JSON, or it is JSON that is not a well-formed Itinerary. *)
Definition spec_decode_error (text : string) : Prop :=
  match loads (Some text) with
  | Loaded v => well_formed_itinerary v = false
  | _ => True
  end.

(** A failed attempt in the specification's sense: a TransportError or a
    DecodeError. *)
Definition spec_attempt_fails (outcome : api_outcome) : Prop :=
  match outcome with
  | Raised _ => True
  | Response None => True
  | Response (Some text) => spec_decode_error text
  end.

(** The two outcomes the specification allows to the generator: a fully
    valid Itinerary under the success status, or an explicit failure
    that carries no itinerary. *)
Definition fully_valid (r : string * pyvalue) : Prop :=
  fst r = App.success_message /\ well_formed_itinerary (snd r) = true.

Definition explicit_failure (r : string * pyvalue) : Prop :=
  snd r = PyNone
  /\ (fst r = App.not_initialized_message \/ exists e, fst r = App.exhausted_message e).

(** The guarantee of the generator as the specification words it. *)
Definition guarantee_as_specified : Prop :=
  forall (gclient : option Client) (destination : string) (days : Z) (interests : string),
    valid_request destination days interests ->
    let r := result (App.generate_student_itinerary gclient destination days interests) in
    fully_valid r \/ explicit_failure r.

(** The retry rule as the specification words it: when the attempts up
    to [k] fail in the specification's sense and [k] is not the last
    one, attempt [k + 1] is made. *)
Definition retry_as_specified : Prop :=
  forall (client : Client) (destination : string) (days : Z) (interests : string) (k : nat),
    S k < App.MAX_RETRIES ->
    (forall j, j <= k ->
       spec_attempt_fails
         (provider_outcome client (App.user_query destination days interests) j)) ->
    S k < requests (trace (App.generate_student_itinerary (Some client)
                             destination days interests)).

(** The log a chat turn starts from: the stored one, or the seeded one. *)
Definition current_log (s : Chat.SessionState) : list Chat.ChatMessage :=
  match Chat.messages s with
  | Some log => log
  | None => [Chat.greeting]
  end.

(** The text of a chunk; a chunk without text carries the empty text. *)
Definition text_of (c : Chunk) : string :=
  match chunk_text c with Some t => t | None => "" end.

(** Concatenation, in arrival order, of the texts of the non-empty chunks. *)
Definition concat_texts (chunks : list Chunk) : string :=
  String.concat "" (filter truthy (map text_of chunks)).

(** The session states a session can be in: it starts new, and each run
    of the chat page, with any client, input and provider behaviour,
    stopped by the script runner at any step or not at all, leads to
    the next one. *)
Inductive reachable : Chat.SessionState -> Prop :=
| reachable_new : reachable Chat.new_session
| reachable_run (control : Chat.script_control) (client : option Client)
    (prompt : option string) (s : Chat.SessionState) :
    reachable s -> reachable (result (Chat.render_chat_page control client prompt s)).

(** The session states reached by runs the script runner never stops. *)
Inductive reachable_unstopped : Chat.SessionState -> Prop :=
| unstopped_new : reachable_unstopped Chat.new_session
| unstopped_run (client : option Client) (prompt : option string)
    (s : Chat.SessionState) :
    reachable_unstopped s ->
    reachable_unstopped (result (Chat.render_chat_page Chat.RunsThrough client prompt s)).

(** The script runner stops the script within the next [steps] steps. *)
Definition stops_within (control : Chat.script_control) (steps : nat) : bool :=
  match control with
  | Chat.RunsThrough => false
  | Chat.StopsAt n => n <? steps
  end.

(** The display steps of a chat turn after the append of the user
    message: the prompt is shown, the container of the reply is opened,
    then one step per chunk shown and one for the error, if any. *)
Definition turn_steps (client : Client) (log : list Chat.ChatMessage) (prompt : string)
  : nat :=
  2 + match generate_content_stream client "gemini-2.5-flash"
              (Chat.get_api_contents
                 (log ++ [ {| Chat.role := "user"; Chat.content := prompt |} ]))
              Chat.chat_config
      with
      | StreamRaised _ => 1
      | Streamed chunks None => length (Chat.chunk_texts chunks)
      | Streamed chunks (Some _) => length (Chat.chunk_texts chunks) + 1
      end.

(** Exhaustion as the specification words it: when every attempt up to
    the maximum fails in the specification's sense, the generator
    returns an explicit failure that carries no itinerary. *)
Definition exhaustion_as_specified : Prop :=
  forall (client : Client) (destination : string) (days : Z) (interests : string),
    (forall k, k < App.MAX_RETRIES ->
       spec_attempt_fails
         (provider_outcome client (App.user_query destination days interests) k)) ->
    explicit_failure
      (result (App.generate_student_itinerary (Some client) destination days interests)).

(** The chat turn as the specification words it: whatever happens after
    the append of the user message, the turn leaves the log it found
    followed by the user message and exactly one model message. *)
Definition two_messages_as_specified : Prop :=
  forall (control : Chat.script_control) (client : Client)
         (log : list Chat.ChatMessage) (prompt : string),
    exists reply,
      result (Chat.chat_turn control client log prompt)
      = (log ++ [ {| Chat.role := "user"; Chat.content := prompt |};
                  {| Chat.role := "model"; Chat.content := reply |} ])%list.

End Spec.

(** ** Concrete providers and payloads *)
Module Examples.
Import PyStr Json Genai Effects.

(** [s] between double quotes. *)
Definition quoted (s : string) : string := String dquote (s ++ String dquote "").

(** A client whose [generate_content] follows [script] and whose stream
    is [stream]. *)
Definition scripted (script : nat -> api_outcome) (stream : stream_outcome) : Client :=
  {| generate_content := fun k _ _ _ => script k;
     generate_content_stream := fun _ _ _ => stream |}.

(** A client that answers every structured request with [text]. *)
Definition answering (text : string) : Client :=
  scripted (fun _ => Response (Some text)) (StreamRaised "no stream").

(** A client whose structured requests all raise [e]. *)
Definition unreachable (e : string) : Client :=
  scripted (fun _ => Raised e) (StreamRaised e).

(** Malformed text on the attempts before [k], [text] from attempt [k] on. *)
Definition recovering (k : nat) (text : string) : Client :=
  scripted (fun j => if j <? k then Response (Some "not json") else Response (Some text))
           (StreamRaised "no stream").

(** A client that streams [chunks]. *)
Definition streaming (chunks : list (option string)) (failure : option string) : Client :=
  scripted (fun _ => Raised "no structured call")
           (Streamed (map (fun t => {| chunk_text := t |}) chunks) failure).

Definition activity_text (time activity cost : string) : string :=
  "{" ++ quoted "time" ++ ": " ++ quoted time ++ ", "
      ++ quoted "activity" ++ ": " ++ quoted activity ++ ", "
      ++ quoted "estimated_cost_inr" ++ ": " ++ cost ++ "}".

Definition day_text (day theme plan tip : string) : string :=
  "{" ++ quoted "day" ++ ": " ++ day ++ ", "
      ++ quoted "theme" ++ ": " ++ quoted theme ++ ", "
      ++ quoted "plan" ++ ": [" ++ plan ++ "], "
      ++ quoted "efficiency_tip" ++ ": " ++ quoted tip ++ "}".

(** Three well-formed day objects. *)
Definition goa_text : string :=
  "[" ++ day_text "1" "Beach Day"
           (activity_text "Morning" "Walk on Calangute beach" "0" ++ ", "
            ++ activity_text "Lunch" "Beach shack thali" "150.5")
           "Stay near the beach and walk."
  ++ ", " ++ day_text "2" "Old Goa"
           (activity_text "Morning" "Basilica of Bom Jesus" "0")
           "Take the local bus."
  ++ ", " ++ day_text "3" "Food Trail"
           (activity_text "Evening" "Panaji street food" "200")
           "Everything is within walking distance."
  ++ "]".

(** A day object without theme, plan and tip. *)
Definition missing_fields_text : string := "[{" ++ quoted "day" ++ ": 1}]".

(** A day whose required plan is the empty list. *)
Definition empty_plan_text : string := "[" ++ day_text "1" "Rest" "" "Sleep." ++ "]".

Definition goa_activity (time activity : string) (cost : pyvalue) : pyvalue :=
  PyDict [("time", PyStr time); ("activity", PyStr activity); ("estimated_cost_inr", cost)].

Definition goa_day (day : Z) (theme : string) (plan : list pyvalue) (tip : string) : pyvalue :=
  PyDict [("day", PyInt day); ("theme", PyStr theme); ("plan", PyList plan);
          ("efficiency_tip", PyStr tip)].

(** The value [goa_text] decodes to. *)
Definition goa_itinerary : pyvalue :=
  PyList
    [ goa_day 1 "Beach Day"
        [ goa_activity "Morning" "Walk on Calangute beach" (PyInt 0);
          goa_activity "Lunch" "Beach shack thali" (PyFloat "150.5") ]
        "Stay near the beach and walk.";
      goa_day 2 "Old Goa"
        [ goa_activity "Morning" "Basilica of Bom Jesus" (PyInt 0) ]
        "Take the local bus.";
      goa_day 3 "Food Trail"
        [ goa_activity "Evening" "Panaji street food" (PyInt 200) ]
        "Everything is within walking distance." ].

Definition goa_query : string := App.user_query "Goa, India" 3 "beaches, food".

(** A provider whose first call raises a transport error, and one whose
    first response is malformed text; both answer with [goa_text] from
    the second call on. *)
Definition transport_then_goa : Client :=
  scripted (fun j => if j =? 0 then Raised "connection reset"
                     else Response (Some goa_text))
           (StreamRaised "no stream").

Definition malformed_then_goa : Client :=
  scripted (fun j => if j =? 0 then Response (Some "not json")
                     else Response (Some goa_text))
           (StreamRaised "no stream").

Definition hello_chunks : list (option string) := [Some "Hel"; None; Some ""; Some "lo!"].

(** A client that streams [Hel], a chunk without text, an empty chunk
    and [lo!]. *)
Definition hello_client : Client := streaming hello_chunks None.

(** A client whose stream breaks after a first chunk. *)
Definition broken_stream_client : Client := streaming [Some "Hel"] (Some "stream closed").

End Examples.

(** ** Text tests of the pages

    [str.lower] and the substring test [in], as the pages use them on
    names and status messages. *)
Module Text.
Import PyStr.

(** [sub in s]. *)
Fixpoint contains (sub s : string) : bool :=
  prefix sub s ||
  match s with
  | EmptyString => false
  | String _ rest => contains sub rest
  end.

Definition lower_ascii (c : ascii) : ascii :=
  let n := nat_of_ascii c in
  if (65 <=? n) && (n <=? 90) then ascii_of_nat (n + 32) else c.

(** [s.lower()], as far as ASCII can tell: an ASCII capital becomes its
    small letter, the Kelvin sign (U+212A, bytes 226 132 170) becomes
    [k], the dotted capital I (U+0130, bytes 196 176) becomes [i]
    followed by the combining dot (bytes 204 135).  These two are the
    only characters outside ASCII whose lower case holds an ASCII
    character; every other character outside ASCII is left as it is,
    its lower case being outside ASCII as well, so that a test for an
    ASCII substring of the result is the one Python makes. *)
Fixpoint lower (s : string) : string :=
  match s with
  | EmptyString => EmptyString
  | String c rest =>
      match rest with
      | EmptyString => String (lower_ascii c) EmptyString
      | String c2 rest2 =>
          if ((c =? "196") && (c2 =? "176"))%char
          then String "i" (String "204" (String "135" (lower rest2)))
          else
            match rest2 with
            | EmptyString => String (lower_ascii c) (lower rest)
            | String c3 rest3 =>
                if ((c =? "226") && (c2 =? "132") && (c3 =? "170"))%char
                then String "k" (lower rest3)
                else String (lower_ascii c) (lower rest)
            end
      end
  end.

End Text.

(** ** Truth values

    The truth value Python gives to a decoded value in a condition. *)
Module Truth.
Import PyStr Json.

Definition strip_sign (s : string) : bool * string :=
  match s with
  | String c rest =>
      if (c =? "-")%char then (true, rest)
      else if (c =? "+")%char then (false, rest)
      else (false, s)
  | EmptyString => (false, s)
  end.

(** The value of the exponent part [e], [e+] or [e-] followed by digits;
    zero when there is none. *)
Definition exponent_of (exp : string) : Z :=
  match exp with
  | String _ rest =>
      let '(negative, ds) := strip_sign rest in
      if negative then (- digits_val ds 0)%Z else digits_val ds 0
  | EmptyString => 0%Z
  end.

(** [float(lit) == 0] for a number literal: the digits are all zero, or
    the number [m * 10 ^ e] it denotes is at most [2 ^ -1075], half the
    smallest positive float, and is rounded to zero.  [NaN] and the
    infinities are not zero. *)
Definition float_is_zero (lit : string) : bool :=
  match match_integer lit with
  | None => false
  | Some (integer, r1) =>
      let '(frac, r2) := match_frac r1 in
      let '(exp, _) := match_exp r2 in
      let fracdigits := drop 1 frac in
      let m := digits_val (snd (strip_sign integer) ++ fracdigits) 0 in
      let e := (exponent_of exp - Z.of_nat (String.length fracdigits))%Z in
      ((m =? 0) || ((e <? 0) && (m * 2 ^ 1075 <=? 10 ^ (- e))))%Z
  end.

(** [bool(v)]. *)
Definition truthy_value (v : pyvalue) : bool :=
  match v with
  | PyNone => false
  | PyBool b => b
  | PyInt z => negb (z =? 0)%Z
  | PyFloat lit => negb (float_is_zero lit)
  | PyStr s => truthy s
  | PyList items => match items with [] => false | _ :: _ => true end
  | PyDict pairs => match pairs with [] => false | _ :: _ => true end
  end.

End Truth.

(** ** [app1.py]: coordinates of a destination *)
Module Tools.
Import PyStr Json Text.

(** [get_coords]: the pair of floats it returns, each kept as the
    literal of the source. *)
Definition get_coords (city_country : string) : pyvalue * pyvalue :=
  if contains "goa" (lower city_country)
  then (PyFloat "15.3004", PyFloat "74.0855")
  else if contains "delhi" (lower city_country)
  then (PyFloat "28.7041", PyFloat "77.1025")
  else if contains "pondicherry" (lower city_country)
          || contains "puducherry" (lower city_country)
  then (PyFloat "11.9416", PyFloat "79.8083")
  else if contains "kathmandu" (lower city_country)
  then (PyFloat "27.7172", PyFloat "85.3240")
  else if contains "usa" (lower city_country)
  then (PyFloat "39.8283", PyFloat "-98.5795")
  else (PyFloat "30.0", PyFloat "70.0").

End Tools.

(** ** [app1.py]: the plan page *)
Module PlanPage.
Import PyStr Json Genai Effects Text Truth.

(** [st.session_state], restricted to the four keys the plan page
    initialises, reads and writes.  [None] stands for an absent key;
    [itinerary_data] holding Python's [None] is [Some PyNone]. *)
Record PlanState : Type := {
  destination : option string;
  days : option Z;
  interests : option string;
  itinerary_data : option pyvalue
}.

Definition new_session : PlanState :=
  {| destination := None; days := None; interests := None; itinerary_data := None |}.

(** What the widgets of the form return in one run. *)
Record Form : Type := {
  destination_input : string;
  days_input : Z;
  interests_input : string;
  submitted : bool
}.

(** What a run hands to the outside: the events of the generator and
    the warnings and errors shown (as in [Effects]), the success banner,
    and the two calls that show a stored itinerary. *)
Inductive page_event : Type :=
| Core (e : event)
| StSuccess (body : string)
| DisplayItinerary (itinerary : pyvalue)
| RenderTripTools (destination : string).

(** How a run of the page ends. *)
Inductive page_end : Type :=
| Rendered
| MissingKey (key : string)
| DisplayRaised.

(** The initialisation of the session state (lines 202-206). *)
Definition initialise (session_state : PlanState) : PlanState :=
  match destination session_state with
  | None =>
      {| destination := Some ""; days := Some 3%Z; interests := Some "";
         itinerary_data := Some PyNone |}
  | Some _ => session_state
  end.

(** The end of the page (lines 253-257): a stored itinerary that is
    truthy is handed to [display_itinerary_streamlit] and then, when
    that call returns, the destination to [render_trip_tools].  Whether
    the display returns is given by [display_returns]. *)
Definition show_stored (display_returns : pyvalue -> bool) (session_state : PlanState)
  : page_end * list page_event :=
  match itinerary_data session_state with
  | None => (MissingKey "itinerary_data", [])
  | Some data =>
      if truthy_value data then
        if display_returns data then
          match destination session_state with
          | Some d => (Rendered, [DisplayItinerary data; RenderTripTools d])
          | None => (MissingKey "destination", [DisplayItinerary data])
          end
        else (DisplayRaised, [DisplayItinerary data])
      else (Rendered, [])
  end.

(** The test [all([destination, days, interests])]. *)
Definition all_filled (form : Form) : bool :=
  truthy (destination_input form)
  && negb (days_input form =? 0)%Z
  && truthy (interests_input form).

(** [render_plan_trip_page]: one run of the page that the script runner
    lets run to its end; it returns the session state it leaves, how it
    ended and what it showed.  Reading a key that is absent ends the
    run. *)
Definition render_plan_trip_page (GEMINI_CLIENT : option Client)
  (display_returns : pyvalue -> bool) (form : Form) (session_state : PlanState)
  : PlanState * page_end * list page_event :=
  let s0 := initialise session_state in
  match days s0, interests s0 with
  | None, _ => (s0, MissingKey "days", [])
  | Some _, None => (s0, MissingKey "interests", [])
  | Some _, Some _ =>
      if submitted form then
        if negb (all_filled form)
        then (s0, Rendered, [Core (EStWarning "Please fill in all the required fields.")])
        else
          let s1 := {| destination := Some (destination_input form);
                       days := Some (days_input form);
                       interests := Some (interests_input form);
                       itinerary_data := itinerary_data s0 |} in
          let '((status_message, itinerary_data), t) :=
            App.generate_student_itinerary GEMINI_CLIENT (destination_input form)
              (days_input form) (interests_input form) in
          let '(s2, banner) :=
            if contains "successfully" status_message
            then ({| destination := destination s1; days := days s1;
                     interests := interests s1;
                     itinerary_data := Some itinerary_data |},
                  StSuccess status_message)
            else ({| destination := destination s1; days := days s1;
                     interests := interests s1;
                     itinerary_data := Some PyNone |},
                  Core (EStError status_message)) in
          let '(ending, shown) := show_stored display_returns s2 in
          (s2, ending, (map Core t ++ banner :: shown)%list)
      else
        let '(ending, shown) := show_stored display_returns s0 in
        (s0, ending, shown)
  end.

(** The [on_click] of a button of the popular places page, on the keys
    of the plan page: [st.session_state.update(..., destination=c)]. *)
Definition plan_button_click (city : string) (session_state : PlanState) : PlanState :=
  {| destination := Some city;
     days := days session_state;
     interests := interests session_state;
     itinerary_data := itinerary_data session_state |}.

(** All four keys are present. *)
Definition initialised (session_state : PlanState) : Prop :=
  destination session_state <> None /\ days session_state <> None
  /\ interests session_state <> None /\ itinerary_data session_state <> None.

(** The provider requests among the events of a run. *)
Definition page_requests (t : list page_event) : nat :=
  requests (flat_map (fun e => match e with Core e => [e] | _ => [] end) t).


End PlanPage.

(** ** Vocabulary for the chat log and the backoff *)
Module Observed.
Import PyStr Json Genai Effects Chat.

(** The messages of [log] carry the roles [first], the other one, [first]
    again, and so on. *)
Fixpoint alternating (first other : string) (log : list ChatMessage) : Prop :=
  match log with
  | [] => True
  | m :: log' => role m = first /\ alternating other first log'
  end.

(** No two messages in a row carry the role [model]. *)
Fixpoint no_two_models (log : list ChatMessage) : bool :=
  match log with
  | [] => true
  | m :: log' =>
      match log' with
      | [] => true
      | m' :: _ =>
          negb ((role m =? "model")%string && (role m' =? "model")%string)
          && no_two_models log'
      end
  end.

(** The chunks a run has shown while streaming, in order. *)
Definition shown_chunks (t : list event) : list string :=
  flat_map (fun e => match e with EStStreamChunk c => [c] | _ => [] end) t.

(** The streaming requests of a run, each with the contents it carries. *)
Definition stream_requests (t : list event) : list (list Content) :=
  flat_map (fun e => match e with
                     | EGenerateContentStream _ contents _ => [contents]
                     | _ => []
                     end) t.

(** The time a run spends in [time.sleep]. *)
Definition total_delay (t : list event) : Z := fold_right Z.add 0%Z (sleeps t).

End Observed.

(** * Properties *)

Import PyStr Json Genai Effects App Chat Spec.

(** ** The decoder has fuel enough *)

Lemma skip_ws_length (s : string) (idx : nat) :
  String.length (fst (skip_ws s idx)) <= String.length s.
Proof.
  revert idx. induction s as [|c s IH]; intro idx; cbn; [lia|].
  destruct (is_ws c); cbn; [specialize (IH (S idx)); lia|lia].
Qed.

Lemma drop_length (n : nat) (s : string) :
  String.length (drop n s) <= String.length s.
Proof.
  revert s. induction n as [|n IH]; intros [|c s]; cbn; try lia.
  specialize (IH s). lia.
Qed.

Lemma take_digits_length (s : string) :
  String.length (snd (take_digits s)) <= String.length s.
Proof.
  induction s as [|c s IH]; cbn; [lia|].
  destruct (is_digit c); cbn; [|lia].
  destruct (take_digits s) as [ds r]. cbn in *. lia.
Qed.

Lemma scanstring_consumes (n : nat) : forall (s : string) (idx begin : nat) (acc : string),
  String.length s <= n -> consumes s (scanstring s idx begin acc).
Proof.
  induction n as [|n IH]; intros s idx begin acc Hn.
  - destruct s; [exact I|cbn in Hn; lia].
  - destruct s as [|c rest]; [exact I|].
    cbn [scanstring].
    repeat match goal with
    | |- consumes _ (inr (JSONDecodeError _ _)) => exact I
    | |- consumes _ (inl _) => cbn; lia
    | |- consumes _ (if ?b then _ else _) => destruct b
    | |- consumes _ (match ?x with _ => _ end) => destruct x
    | |- consumes _ (let _ := _ in _) => cbv zeta
    end.
    all: cbn [String.length] in Hn.
    all: try (match goal with
         | |- consumes ?s (scanstring ?r ?i ?b ?a) =>
             let H := fresh in
             assert (H : consumes r (scanstring r i b a)) by (apply IH; cbn [String.length]; lia);
             unfold consumes in *; destruct (scanstring r i b a) as [[? [? ?]]|[]]; cbn [String.length] in *; try exact I; try lia; try contradiction
         end).
Qed.

Lemma match_number_consumes (s : string) (idx : nat) (v : pyvalue) (r : string) (i : nat) :
  match_number s idx = Some (v, (r, i)) -> String.length r < String.length s.
Proof.
  unfold match_number.
  destruct (match_integer s) as [[integer r1]|] eqn:Hint; [|discriminate].
  assert (H1 : String.length r1 < String.length s).
  { unfold match_integer in Hint.
    destruct s as [|c s]; [discriminate|].
    destruct (c =? "-")%char.
    - destruct s as [|c' s]; [discriminate|].
      destruct (c' =? "0")%char; [injection Hint as _ <-; cbn; lia|].
      destruct (is_digit c'); [|discriminate].
      pose proof (take_digits_length (String c' s)) as Hd.
      destruct (take_digits (String c' s)) as [ds r']. injection Hint as _ <-.
      cbn in Hd |- *.
      cbn [take_digits] in *. lia.
    - destruct (c =? "0")%char; [injection Hint as _ <-; cbn; lia|].
      destruct (is_digit c) eqn:Hc; [|discriminate].
      cbn [take_digits] in Hint. rewrite Hc in Hint.
      pose proof (take_digits_length s) as Hd.
      destruct (take_digits s) as [ds r']. injection Hint as _ <-. cbn in Hd |- *. lia. }
  assert (H2 : String.length (snd (match_frac r1)) <= String.length r1).
  { unfold match_frac. destruct r1 as [|c r1]; [cbn; lia|].
    destruct (c =? ".")%char; [|cbn; lia].
    pose proof (take_digits_length r1) as Hd.
    destruct (take_digits r1) as [[|d ds] r']; cbn in *; lia. }
  destruct (match_frac r1) as [frac r2]. cbn [snd] in H2.
  assert (H3 : String.length (snd (match_exp r2)) <= String.length r2).
  { unfold match_exp. destruct r2 as [|c r2]; [cbn; lia|].
    destruct ((c =? "e") || (c =? "E"))%char; [|cbn; lia].
    destruct r2 as [|c' r2].
    - cbn. lia.
    - destruct ((c' =? "-") || (c' =? "+"))%char.
      + pose proof (take_digits_length r2) as Hd.
        destruct (take_digits r2) as [[|d ds] r']; cbn in *; lia.
      + pose proof (take_digits_length (String c' r2)) as Hd.
        destruct (take_digits (String c' r2)) as [[|d ds] r']; cbn in *; lia. }
  destruct (match_exp r2) as [exp r3]. cbn [snd] in H3.
  intro H. injection H as _ <- _. lia.
Qed.

Lemma drop_cons_length (n : nat) (c : ascii) (s : string) :
  String.length (drop (S n) (String c s)) < String.length (String c s).
Proof. pose proof (drop_length n s). cbn in *. lia. Qed.

Ltac scan_step IHs IHa IHo :=
  match goal with
  | |- True => exact I
  | |- consumes _ (inr (JSONDecodeError _ _)) => exact I
  | |- consumes _ (inr (StopIteration _)) => exact I
  | |- consumes _ (inl (_, (drop _ _, _))) => apply drop_cons_length
  | |- consumes _ (inl _) => cbn [consumes String.length] in *; lia
  | |- consumes _ (let '(_, _) := skip_ws ?s ?k in _) =>
      let H := fresh "Hws" in
      pose proof (skip_ws_length s k) as H;
      destruct (skip_ws s k) as [? ?]; cbn [fst] in H
  | |- consumes _ (match scanstring ?s ?i ?b ?a with _ => _ end) =>
      let H := fresh "Hss" in
      pose proof (scanstring_consumes _ s i b a (le_n _)) as H;
      destruct (scanstring s i b a) as [[? [? ?]]|[]];
      cbn [consumes] in H; try contradiction
  | |- consumes _ (match scan_once ?f ?s ?i with _ => _ end) =>
      let H := fresh "Hso" in
      assert (H : consumes s (scan_once f s i))
        by (apply IHs; cbn [String.length] in *; lia);
      destruct (scan_once f s i) as [[? [? ?]]|[]];
      cbn [consumes expecting_value] in H |- *; try contradiction
  | |- consumes _ (match match_number ?s ?i with _ => _ end) =>
      let H := fresh "Hnum" in
      destruct (match_number s i) as [[? [? ?]]|] eqn:H;
      [apply match_number_consumes in H|]
  | |- consumes _ (array_loop ?f ?s ?i ?v) =>
      let H := fresh "Harr" in
      assert (H : consumes s (array_loop f s i v))
        by (apply IHa; cbn [String.length] in *; lia);
      revert H; unfold consumes;
      destruct (array_loop f s i v) as [[? [? ?]]|[]];
      cbn [String.length] in *; intros; try exact I; try lia; try contradiction
  | |- consumes _ (object_loop ?f ?s ?i ?v) =>
      let H := fresh "Hobj" in
      assert (H : consumes s (object_loop f s i v))
        by (apply IHo; cbn [String.length] in *; lia);
      revert H; unfold consumes;
      destruct (object_loop f s i v) as [[? [? ?]]|[]];
      cbn [String.length] in *; intros; try exact I; try lia; try contradiction
  | |- consumes _ (if ?b then _ else _) => destruct b
  | |- consumes _ (match ?x with EmptyString => _ | String _ _ => _ end) => destruct x
  end.

Lemma scan_consumes (fuel : nat) :
  (forall s idx, 2 * String.length s + 1 <= fuel -> consumes s (scan_once fuel s idx))
  /\ (forall s idx values,
        2 * String.length s + 2 <= fuel -> consumes s (array_loop fuel s idx values))
  /\ (forall s idx pairs,
        2 * String.length s + 2 <= fuel -> consumes s (object_loop fuel s idx pairs)).
Proof.
  induction fuel as [|fuel (IHs & IHa & IHo)].
  - repeat split; intros; lia.
  - split; [|split].
    + intros s idx Hfuel. cbn [scan_once].
      destruct s as [|nextchar rest]; [exact I|]. cbn [String.length] in Hfuel.
      repeat scan_step IHs IHa IHo.
    + intros s idx values Hfuel. cbn [array_loop].
      repeat scan_step IHs IHa IHo.
    + intros s idx pairs Hfuel. cbn [object_loop].
      repeat scan_step IHs IHa IHo.
Qed.

Lemma decode_total (s : string) : decode s <> inr OutOfFuel.
Proof.
  unfold decode.
  pose proof (skip_ws_length s 0) as Hws.
  destruct (skip_ws s 0) as [r i]. cbn [fst] in Hws.
  pose proof (proj1 (scan_consumes (2 * String.length s + 2)) r i ltac:(lia)) as H.
  destruct (scan_once (2 * String.length s + 2) r i) as [[v [r' i']]|[]];
    cbn [consumes expecting_value] in *; try discriminate; [|contradiction].
  destruct (skip_ws r' i') as [[|c r''] i'']; discriminate.
Qed.

(** On a [str], [json.loads] returns a value or raises
    [JSONDecodeError]. *)
Lemma loads_str_cases (doc : string) :
  (exists v, loads (Some doc) = Loaded v)
  \/ (exists e, loads (Some doc) = RaisedJSONDecodeError e).
Proof.
  unfold loads. destruct (prefix utf8_bom doc); [right; eauto|].
  pose proof (decode_total doc) as H.
  destruct (decode doc) as [v|[pos|msg pos|]]; [left|right|right|contradiction]; eauto.
Qed.

(** ** The decoder on sample texts *)

Example loads_null : loads (Some "null") = Loaded PyNone.
Proof. reflexivity. Qed.

Example loads_number : loads (Some "42") = Loaded (PyInt 42).
Proof. reflexivity. Qed.

Example loads_empty_list : loads (Some "[]") = Loaded (PyList []).
Proof. reflexivity. Qed.

Example loads_missing_fields :
  loads (Some Examples.missing_fields_text) = Loaded (PyList [PyDict [("day", PyInt 1)]]).
Proof. vm_compute. reflexivity. Qed.

Example loads_goa : loads (Some Examples.goa_text) = Loaded Examples.goa_itinerary.
Proof. vm_compute. reflexivity. Qed.

Example goa_well_formed : well_formed_itinerary Examples.goa_itinerary = true.
Proof. vm_compute. reflexivity. Qed.

Example loads_not_json :
  loads (Some "not json") = RaisedJSONDecodeError "Expecting value: line 1 column 1 (char 0)".
Proof. vm_compute. reflexivity. Qed.

Example loads_None :
  loads None = RaisedOther "the JSON object must be str, bytes or bytearray, not NoneType".
Proof. reflexivity. Qed.

(** ** Traces and schedules *)

Lemma requests_app (t1 t2 : list event) : requests (t1 ++ t2) = requests t1 + requests t2.
Proof. unfold requests. now rewrite filter_app, length_app. Qed.

Lemma sleeps_app (t1 t2 : list event) : sleeps (t1 ++ t2) = (sleeps t1 ++ sleeps t2)%list.
Proof. unfold sleeps. now rewrite flat_map_app. Qed.

Lemma schedule_succ (base : Z) (request : event) (i n : nat) :
  backoff_schedule base request i (S (S n)) =
  request :: ESleep (backoff_delay base i) :: backoff_schedule base request (S i) (S n).
Proof. reflexivity. Qed.

Lemma schedule_extend (base : Z) (request : event) (n i : nat) :
  backoff_schedule base request i (S (S n)) =
  (backoff_schedule base request i (S n)
   ++ [ESleep (backoff_delay base (i + n)); request])%list.
Proof.
  revert i. induction n as [|n IH]; intro i.
  - simpl. unfold backoff_delay. now rewrite Nat.add_0_r.
  - rewrite schedule_succ, IH, schedule_succ.
    replace (S i + n) with (i + S n) by lia. reflexivity.
Qed.

Lemma schedule_prefix (base : Z) (request : event) (m n i : nat) :
  n <= m ->
  exists rest, backoff_schedule base request i m
               = (backoff_schedule base request i n ++ rest)%list.
Proof.
  intro Hle. induction Hle as [|m Hle [rest IH]].
  - exists []. now rewrite app_nil_r.
  - destruct m as [|m].
    + assert (n = 0) by lia. subst n. now exists (backoff_schedule base request i 1).
    + rewrite schedule_extend, IH. eexists. now rewrite <- app_assoc.
Qed.

Lemma schedule_requests (base : Z) (model : string) (contents : list string)
  (config : GenerateContentConfig) (n i : nat) :
  requests (backoff_schedule base (EGenerateContent model contents config) i n) = n.
Proof.
  revert i. induction n as [|[|n] IH]; intro i; try reflexivity.
  rewrite schedule_succ.
  change (S (requests (backoff_schedule base (EGenerateContent model contents config)
                         (S i) (S n))) = S (S n)).
  now rewrite IH.
Qed.

Lemma schedule_sleeps (base : Z) (model : string) (contents : list string)
  (config : GenerateContentConfig) (n i : nat) :
  sleeps (backoff_schedule base (EGenerateContent model contents config) i n)
  = map (backoff_delay base) (seq i (n - 1)).
Proof.
  revert i. induction n as [|[|n] IH]; intro i; try reflexivity.
  rewrite schedule_succ.
  change (backoff_delay base i
          :: sleeps (backoff_schedule base (EGenerateContent model contents config)
                       (S i) (S n))
          = map (backoff_delay base) (seq i (S (S n) - 1))).
  rewrite IH. simpl. now rewrite Nat.sub_0_r.
Qed.

Lemma schedule_no_final_sleep (base : Z) (model : string) (contents : list string)
  (config : GenerateContentConfig) (n i : nat) (t : list event) (d : Z) :
  backoff_schedule base (EGenerateContent model contents config) i n <> (t ++ [ESleep d])%list.
Proof.
  revert i t. induction n as [|[|n] IH]; intros i t H.
  - now destruct t.
  - destruct t as [|e [|e' t]]; discriminate.
  - rewrite schedule_succ in H.
    destruct t as [|e [|e' t]]; try discriminate.
    injection H as _ _ H. exact (IH (S i) t H).
Qed.

(** ** The retry loop *)

Section RetryLoop.

Variables (max : nat) (base : Z) (client : Client) (query : string).

Lemma retry_loop_nil (last_error : string) :
  retry_loop max base client query [] last_error
  = ((exhausted_message last_error, PyNone), []).
Proof. reflexivity. Qed.

Lemma retry_loop_success (attempt : nat) (rest : list nat) (last_error : string)
  (v : pyvalue) :
  attempt_result attempt (provider_outcome client query attempt) = inl v ->
  retry_loop max base client query (attempt :: rest) last_error
  = ((success_message, v), [itinerary_request query]).
Proof.
  intro H. unfold provider_outcome in H. simpl. now rewrite H.
Qed.

Lemma retry_loop_failure (attempt : nat) (rest : list nat) (last_error e : string) :
  attempt_result attempt (provider_outcome client query attempt) = inr e ->
  retry_loop max base client query (attempt :: rest) last_error
  = (result (retry_loop max base client query rest e),
     itinerary_request query
     :: (if attempt <? max - 1 then [ESleep (backoff_delay base attempt)] else [])
     ++ trace (retry_loop max base client query rest e))%list.
Proof.
  intro H. unfold provider_outcome in H. simpl. rewrite H.
  destruct (retry_loop max base client query rest e) as [r t].
  now destruct (attempt <? max - 1).
Qed.

(** The loop over the attempts [i], ..., [max - 1]: either some attempt
    is the first to decode and the loop stops there, or all fail. *)
Lemma retry_loop_seq (n i : nat) (last_error : string) :
  i + n = max ->
  (exists k v,
      i <= k < max
      /\ (forall j, i <= j < k -> attempt_fails client query j)
      /\ attempt_result k (provider_outcome client query k) = inl v
      /\ retry_loop max base client query (seq i n) last_error
         = ((success_message, v),
            backoff_schedule base (itinerary_request query) i (S k - i)))
  \/ ((forall j, i <= j < max -> attempt_fails client query j)
      /\ exists e,
          most_recent_error client query i n last_error e
          /\ retry_loop max base client query (seq i n) last_error
             = ((exhausted_message e, PyNone),
                backoff_schedule base (itinerary_request query) i n)).
Proof.
  revert i last_error. induction n as [|n IH]; intros i last_error Hmax.
  - right. split; [intros j Hj; lia|]. exists last_error. now split.
  - cbn [seq].
    destruct (attempt_result i (provider_outcome client query i)) as [v|e] eqn:Hi.
    + left. exists i, v. split; [lia|]. split; [intros j Hj; lia|]. split; [assumption|].
      rewrite (retry_loop_success _ _ _ _ Hi).
      now replace (S i - i) with 1 by lia.
    + rewrite (retry_loop_failure _ _ _ _ Hi).
      destruct (IH (S i) e ltac:(lia)) as [(k & v & Hk & Hprev & Hv & Hrun)|(Hall & e' & He' & Hrun)].
      * left. exists k, v. split; [lia|]. split; [|split; [assumption|]].
        { intros j Hj. destruct (Nat.eq_dec j i) as [->|Hne]; [now exists e|].
          apply Hprev. lia. }
        rewrite Hrun. cbn [result trace fst snd].
        replace (i <? max - 1) with true by (symmetry; apply Nat.ltb_lt; lia).
        replace (S k - i) with (S (S (k - S i))) by lia.
        rewrite schedule_succ. now replace (S k - S i) with (S (k - S i)) by lia.
      * right. split.
        { intros j Hj. destruct (Nat.eq_dec j i) as [->|Hne]; [now exists e|].
          apply Hall. lia. }
        exists e'. split.
        { destruct n as [|n].
          - cbn in He'. subst e'. cbn. now rewrite Nat.add_0_r.
          - cbn in He' |- *. now replace (i + S n) with (S (i + n)) by lia. }
        rewrite Hrun. cbn [result trace fst snd].
        destruct n as [|n].
        -- replace (i <? max - 1) with false by (symmetry; apply Nat.ltb_ge; lia).
           reflexivity.
        -- replace (i <? max - 1) with true by (symmetry; apply Nat.ltb_lt; lia).
           now rewrite schedule_succ.
Qed.

End RetryLoop.

Section RetryLoopClients.

Variables (max : nat) (base : Z) (query : string).

Lemma retry_loop_last_error (client : Client) (attempts : list nat) (e1 e2 : string) :
  attempts <> [] ->
  retry_loop max base client query attempts e1
  = retry_loop max base client query attempts e2.
Proof.
  destruct attempts as [|attempt rest]; [congruence|intros _].
  destruct (attempt_result attempt (provider_outcome client query attempt)) as [v|e] eqn:H.
  - now rewrite !(retry_loop_success _ _ _ _ _ _ _ _ H).
  - now rewrite !(retry_loop_failure _ _ _ _ _ _ _ _ H).
Qed.

Lemma retry_loop_ext (c1 c2 : Client) (attempts : list nat) (last_error : string) :
  (forall a, In a attempts -> provider_outcome c1 query a = provider_outcome c2 query a) ->
  retry_loop max base c1 query attempts last_error
  = retry_loop max base c2 query attempts last_error.
Proof.
  revert last_error. induction attempts as [|attempt rest IH]; intros last_error Hagree.
  - reflexivity.
  - assert (Hrest : forall a, In a rest ->
                      provider_outcome c1 query a = provider_outcome c2 query a)
      by (intros a Ha; apply Hagree; now right).
    destruct (attempt_result attempt (provider_outcome c1 query attempt)) as [v|e] eqn:H1.
    + rewrite (retry_loop_success _ _ _ _ _ _ _ _ H1).
      rewrite (Hagree attempt (or_introl eq_refl)) in H1.
      now rewrite (retry_loop_success _ _ _ _ _ _ _ _ H1).
    + rewrite (retry_loop_failure _ _ _ _ _ _ _ _ H1).
      rewrite (Hagree attempt (or_introl eq_refl)) in H1.
      rewrite (retry_loop_failure _ _ _ _ _ _ _ _ H1).
      now rewrite (IH e Hrest).
Qed.

(** Two providers that differ only in how attempt [k] fails, where [k]
    is not the last attempt, give the same run. *)
Lemma retry_loop_same_failure (c1 c2 : Client) (k : nat) (e1 e2 : string) (n i : nat)
  (last_error : string) :
  i + n = max -> i <= k -> S k < max ->
  (forall j, j <> k -> provider_outcome c1 query j = provider_outcome c2 query j) ->
  attempt_result k (provider_outcome c1 query k) = inr e1 ->
  attempt_result k (provider_outcome c2 query k) = inr e2 ->
  retry_loop max base c1 query (seq i n) last_error
  = retry_loop max base c2 query (seq i n) last_error.
Proof.
  intros Hmax Hik Hk Hagree H1 H2. revert i last_error Hmax Hik.
  induction n as [|n IH]; intros i last_error Hmax Hik; [reflexivity|].
  cbn [seq]. destruct (Nat.eq_dec i k) as [->|Hne].
  - rewrite (retry_loop_failure _ _ _ _ _ _ _ _ H1), (retry_loop_failure _ _ _ _ _ _ _ _ H2).
    assert (Hrest : retry_loop max base c1 query (seq (S k) n) e1
                    = retry_loop max base c2 query (seq (S k) n) e2).
    { rewrite (retry_loop_last_error c1 _ e1 e2).
      - apply retry_loop_ext. intros a Ha. apply in_seq in Ha. apply Hagree. lia.
      - destruct n; [lia|discriminate]. }
    now rewrite Hrest.
  - assert (Hi : provider_outcome c1 query i = provider_outcome c2 query i)
      by (apply Hagree; assumption).
    destruct (attempt_result i (provider_outcome c1 query i)) as [v|e] eqn:Hr.
    + rewrite (retry_loop_success _ _ _ _ _ _ _ _ Hr). rewrite Hi in Hr.
      now rewrite (retry_loop_success _ _ _ _ _ _ _ _ Hr).
    + rewrite (retry_loop_failure _ _ _ _ _ _ _ _ Hr). rewrite Hi in Hr.
      rewrite (retry_loop_failure _ _ _ _ _ _ _ _ Hr).
      now rewrite (IH (S i) e ltac:(lia) ltac:(lia)).
Qed.

End RetryLoopClients.

(** ** Runs of the generator *)

Section Generator.

Variables (max : nat) (base : Z) (client : Client).
Variables (destination : string) (days : Z) (interests : string).

Local Abbreviation query := (user_query destination days interests).
Local Abbreviation run :=
  (generate_student_itinerary_with max base (Some client) destination days interests).

(** A run either stops at the first attempt that decodes, or makes all
    [max] attempts and reports the last error. *)
Lemma generate_cases :
  (exists k v,
      k < max
      /\ (forall j, j < k -> attempt_fails client query j)
      /\ attempt_result k (provider_outcome client query k) = inl v
      /\ run = ((success_message, v),
                backoff_schedule base (itinerary_request query) 0 (S k)))
  \/ ((forall j, j < max -> attempt_fails client query j)
      /\ exists e,
          most_recent_error client query 0 max
            "Unknown error occurred before first API call." e
          /\ run = ((exhausted_message e, PyNone),
                    backoff_schedule base (itinerary_request query) 0 max)).
Proof.
  destruct (retry_loop_seq max base client query max 0
              "Unknown error occurred before first API call." eq_refl)
    as [(k & v & Hk & Hprev & Hv & Hrun)|(Hall & e & He & Hrun)].
  - left. exists k, v. split; [lia|]. split; [intros j Hj; apply Hprev; lia|].
    split; [assumption|]. rewrite Nat.sub_0_r in Hrun. exact Hrun.
  - right. split; [intros j Hj; apply Hall; lia|]. now exists e.
Qed.

(** The first attempt that decodes decides the run. *)
Lemma generate_first_success (k : nat) (v : pyvalue) :
  k < max ->
  (forall j, j < k -> attempt_fails client query j) ->
  attempt_result k (provider_outcome client query k) = inl v ->
  run = ((success_message, v), backoff_schedule base (itinerary_request query) 0 (S k)).
Proof.
  intros Hk Hprev Hv.
  destruct generate_cases as [(k' & v' & Hk' & Hprev' & Hv' & Hrun)|(Hall & _)].
  - destruct (Nat.lt_trichotomy k k') as [Hlt|[->|Hgt]].
    + destruct (Hprev' k Hlt) as [e He]. congruence.
    + congruence.
    + destruct (Hprev k' Hgt) as [e He]. congruence.
  - destruct (Hall k Hk) as [e He]. congruence.
Qed.

(** When no attempt decodes, all [max] attempts are made. *)
Lemma generate_exhausted :
  (forall j, j < max -> attempt_fails client query j) ->
  exists e,
    most_recent_error client query 0 max "Unknown error occurred before first API call." e
    /\ run = ((exhausted_message e, PyNone),
              backoff_schedule base (itinerary_request query) 0 max).
Proof.
  intro Hall.
  destruct generate_cases as [(k & v & Hk & _ & Hv & _)|(_ & H)]; [|exact H].
  destruct (Hall k Hk) as [e He]. congruence.
Qed.

End Generator.

Lemma attempt_result_decoded (k : nat) (outcome : api_outcome) (v : pyvalue) :
  attempt_result k outcome = inl v <->
  exists text, outcome = Response (Some text) /\ loads (Some text) = Loaded v.
Proof.
  split.
  - destruct outcome as [e|[text|]]; cbn -[loads]; [discriminate| |discriminate].
    destruct (loads (Some text)) eqn:H; intro E; inversion E; subst. now exists text.
  - intros (text & -> & H). cbn -[loads]. now rewrite H.
Qed.

Lemma attempt_result_raised (k : nat) (e : string) :
  attempt_result k (Raised e) = inr (connection_error k e).
Proof. reflexivity. Qed.

Lemma attempt_result_malformed (k : nat) (text e : string) :
  loads (Some text) = RaisedJSONDecodeError e ->
  attempt_result k (Response (Some text)) = inr (format_error k e).
Proof. intro H. cbn -[loads]. now rewrite H. Qed.

(** ** The structured generator against the specification *)

(** The events of a run are the schedule of the attempts it makes. *)
Lemma generate_trace_shape (max : nat) (base : Z) (gclient : option Client)
  (destination : string) (days : Z) (interests : string) :
  exists n,
    n <= max
    /\ trace (generate_student_itinerary_with max base gclient destination days interests)
       = backoff_schedule base
           (itinerary_request (user_query destination days interests)) 0 n.
Proof.
  destruct gclient as [client|].
  - destruct (generate_cases max base client destination days interests)
      as [(k & v & Hk & _ & _ & Hrun)|(_ & e & _ & Hrun)].
    + exists (S k). split; [lia|]. now rewrite Hrun.
    + exists max. split; [lia|]. now rewrite Hrun.
  - exists 0. split; [lia|reflexivity].
Qed.

(** C3. In every run of the structured generator the number of requests
    to the provider is at most the configured maximum; the run's events
    are exactly a request per attempt with, between attempt [i] and
    attempt [i + 1], one delay of [base * 2 ^ i] (a fixed value, no
    jitter); the last event of a run is never a delay. *)
Theorem attempts_bounded_backoff_exact (max : nat) (base : Z) (gclient : option Client)
  (destination : string) (days : Z) (interests : string) :
  let t := trace (generate_student_itinerary_with max base gclient
                    destination days interests) in
  exists n,
    n <= max
    /\ t = backoff_schedule base
             (itinerary_request (user_query destination days interests)) 0 n
    /\ requests t = n
    /\ sleeps t = map (fun i => (base * 2 ^ Z.of_nat i)%Z) (seq 0 (n - 1))
    /\ (forall t' d, t <> (t' ++ [ESleep d])%list).
Proof.
  intro t.
  destruct (generate_trace_shape max base gclient destination days interests)
    as (n & Hn & Ht).
  exists n. subst t. rewrite Ht. unfold itinerary_request.
  split; [assumption|]. split; [reflexivity|].
  split; [apply schedule_requests|].
  split; [apply schedule_sleeps|].
  intros t' d. apply schedule_no_final_sleep.
Qed.

(** With the constants of the source, a run makes at most five requests. *)
Corollary default_attempts_at_most_five (gclient : option Client)
  (destination : string) (days : Z) (interests : string) :
  requests (trace (generate_student_itinerary gclient destination days interests)) <= 5.
Proof.
  destruct (generate_trace_shape MAX_RETRIES INITIAL_DELAY gclient
              destination days interests) as (n & Hn & Ht).
  unfold generate_student_itinerary. rewrite Ht. unfold itinerary_request.
  rewrite schedule_requests. exact Hn.
Qed.

(** C5. The first attempt whose response decodes ends the run: the
    decoded value is returned under the success status, the run has
    made exactly the attempts up to that one and the delays between
    them, and nothing follows; when the first attempt decodes, the run
    is a single request with no delay. *)
Theorem first_decode_returns_immediately (max : nat) (base : Z) (client : Client)
  (destination : string) (days : Z) (interests : string) (k : nat) (v : pyvalue) :
  let query := user_query destination days interests in
  let run := generate_student_itinerary_with max base (Some client)
               destination days interests in
  k < max ->
  (forall j, j < k -> attempt_fails client query j) ->
  attempt_result k (provider_outcome client query k) = inl v ->
  result run = (success_message, v)
  /\ trace run = backoff_schedule base (itinerary_request query) 0 (S k)
  /\ requests (trace run) = S k
  /\ sleeps (trace run) = map (fun i => (base * 2 ^ Z.of_nat i)%Z) (seq 0 k)
  /\ (k = 0 -> trace run = [itinerary_request query]).
Proof.
  intros query run Hk Hprev Hv.
  pose proof (generate_first_success max base client destination days interests
                k v Hk Hprev Hv) as Hrun.
  fold query in Hrun. fold run in Hrun. rewrite Hrun. cbn [result trace fst snd].
  unfold itinerary_request.
  split; [reflexivity|]. split; [reflexivity|].
  split; [apply schedule_requests|].
  split.
  - rewrite schedule_sleeps. cbn [Nat.sub]. now rewrite Nat.sub_0_r.
  - now intros ->.
Qed.

(** The scenario of the specification: three well-formed day objects on
    the first attempt give an itinerary with the days 1, 2, 3 and no
    retry. *)
Lemma first_decode_goa :
  result (generate_student_itinerary (Some (Examples.answering Examples.goa_text))
            "Goa, India" 3 "beaches, food")
  = (success_message, Examples.goa_itinerary)
  /\ trace (generate_student_itinerary (Some (Examples.answering Examples.goa_text))
             "Goa, India" 3 "beaches, food")
     = [itinerary_request Examples.goa_query]
  /\ map day_number (match Examples.goa_itinerary with PyList l => l | _ => [] end)
     = [Some 1%Z; Some 2%Z; Some 3%Z].
Proof.
  destruct (first_decode_returns_immediately MAX_RETRIES INITIAL_DELAY
              (Examples.answering Examples.goa_text) "Goa, India" 3 "beaches, food"
              0 Examples.goa_itinerary)
    as (Hres & _ & _ & _ & Htrace).
  - unfold MAX_RETRIES. lia.
  - intros j Hj. lia.
  - vm_compute. reflexivity.
  - split; [exact Hres|]. split; [exact (Htrace eq_refl)|]. reflexivity.
Defined.

(** Every result of the generator carries the success status or is an
    explicit failure without itinerary. *)
Lemma generate_success_or_failure (max : nat) (base : Z) (gclient : option Client)
  (destination : string) (days : Z) (interests : string) :
  let r := result (generate_student_itinerary_with max base gclient
                     destination days interests) in
  fst r = success_message \/ explicit_failure r.
Proof.
  destruct gclient as [client|]; cbn zeta.
  - destruct (generate_cases max base client destination days interests)
      as [(k & v & _ & _ & _ & Hrun)|(_ & e & _ & Hrun)]; rewrite Hrun.
    + now left.
    + right. split; [reflexivity|]. right. now exists e.
  - right. split; [reflexivity|]. now left.
Qed.

Lemma answering_not_json_fails (query : string) (k : nat) :
  attempt_fails (Examples.answering "not json") query k.
Proof.
  exists (format_error k "Expecting value: line 1 column 1 (char 0)").
  apply attempt_result_malformed. exact loads_not_json.
Qed.

(** C4 (as stated, refuted). Text that is not JSON on four attempts and
    the text [null] on the fifth: every one of the five attempts fails
    to produce a decode in the specification's sense (the fifth gives
    JSON that is no Itinerary), all five requests are made, and the
    generator returns the success status with [None], not a failure. *)
Lemma exhaustion_fails_on_null_after_retries :
  (forall k, k < MAX_RETRIES ->
     spec_attempt_fails
       (provider_outcome (Examples.recovering 4 "null")
          (user_query "Goa, India" 3 "beaches, food") k))
  /\ provider_outcome (Examples.recovering 4 "null")
       (user_query "Goa, India" 3 "beaches, food") 4
     = Response (Some "null")
  /\ result (generate_student_itinerary (Some (Examples.recovering 4 "null"))
               "Goa, India" 3 "beaches, food")
     = ("Itinerary generated successfully!", PyNone)
  /\ requests (trace (generate_student_itinerary (Some (Examples.recovering 4 "null"))
                        "Goa, India" 3 "beaches, food")) = 5
  /\ ~ exhaustion_as_specified.
Proof.
  assert (Hfail : forall k, k < MAX_RETRIES ->
            spec_attempt_fails
              (provider_outcome (Examples.recovering 4 "null")
                 (user_query "Goa, India" 3 "beaches, food") k)).
  { intros k Hk. unfold MAX_RETRIES in Hk.
    destruct k as [|[|[|[|[|k]]]]]; [| | | | |lia]; vm_compute; first [exact I|reflexivity]. }
  assert (Hrun : result (generate_student_itinerary (Some (Examples.recovering 4 "null"))
                           "Goa, India" 3 "beaches, food")
                 = ("Itinerary generated successfully!", PyNone))
    by (vm_compute; reflexivity).
  split; [exact Hfail|]. split; [reflexivity|]. split; [exact Hrun|].
  split; [vm_compute; reflexivity|].
  intro Hspec.
  specialize (Hspec (Examples.recovering 4 "null") "Goa, India" 3%Z "beaches, food" Hfail).
  rewrite Hrun in Hspec. destruct Hspec as [_ [H|[e H]]]; cbn in H; discriminate.
Qed.

(** The error description an attempt records, spelled out. *)
Lemma attempt_error_text (k : nat) (outcome : api_outcome) (err : string) :
  attempt_result k outcome = inr err ->
  match outcome with
  | Raised e =>
      err = "Gemini API connection error (Attempt " ++ str_of_nat (k + 1) ++ "): " ++ e
  | Response text =>
      match loads text with
      | Loaded _ => False
      | RaisedJSONDecodeError e =>
          err = "AI response format error (Attempt " ++ str_of_nat (k + 1)
                ++ "): Failed to parse JSON response. Details: " ++ e
      | RaisedOther e =>
          err = "Gemini API connection error (Attempt " ++ str_of_nat (k + 1) ++ "): " ++ e
      end
  end.
Proof.
  destruct outcome as [e|text]; cbn -[loads str_of_nat].
  - intro H. now injection H as <-.
  - destruct (loads text) as [v|e|e]; intro H; [discriminate| |]; now injection H as <-.
Qed.

(** C4 (amended). When every attempt up to the maximum ends in an
    exception (the call raises, or [json.loads] rejects the response),
    the generator makes exactly [max] requests and returns [None] with
    the text [Failed to generate itinerary after multiple retries. Last
    known error: ] followed by the error description of the last
    attempt: [Gemini API connection error (Attempt max): ] and the text
    of the exception, or, when [json.loads] raised [JSONDecodeError],
    [AI response format error (Attempt max): Failed to parse JSON
    response. Details: ] and that text.  Whatever the provider does, a
    result that does not carry the success status is the not-initialised
    message or the exhaustion message, with [None]: the error of a
    single attempt never reaches the caller on its own. *)
Theorem exhaustion_reports_last_error (max : nat) (base : Z) (gclient : option Client)
  (destination : string) (days : Z) (interests : string) :
  let query := user_query destination days interests in
  let run := generate_student_itinerary_with max base gclient
               destination days interests in
  (forall client,
      gclient = Some client ->
      (forall k, k < max -> attempt_fails client query k) ->
      exists last_error,
        match max with
        | 0 => last_error = "Unknown error occurred before first API call."
        | S m =>
            match provider_outcome client query m with
            | Raised e =>
                last_error
                = "Gemini API connection error (Attempt " ++ str_of_nat (m + 1)
                  ++ "): " ++ e
            | Response text =>
                match loads text with
                | Loaded _ => False
                | RaisedJSONDecodeError e =>
                    last_error
                    = "AI response format error (Attempt " ++ str_of_nat (m + 1)
                      ++ "): Failed to parse JSON response. Details: " ++ e
                | RaisedOther e =>
                    last_error
                    = "Gemini API connection error (Attempt " ++ str_of_nat (m + 1)
                      ++ "): " ++ e
                end
            end
        end
        /\ result run
           = ("Failed to generate itinerary after multiple retries. Last known error: "
              ++ last_error, PyNone)
        /\ requests (trace run) = max)
  /\ (fst (result run) = "Itinerary generated successfully!"
      \/ snd (result run) = PyNone
         /\ (fst (result run) = "Error: Gemini client is not initialized. Check API Key."
             \/ exists last_error,
                 fst (result run)
                 = "Failed to generate itinerary after multiple retries. Last known error: "
                   ++ last_error)).
Proof.
  intros query run. split.
  - intros client -> Hall.
    destruct (generate_exhausted max base client destination days interests Hall)
      as (e & He & Hrun).
    exists e. subst run. rewrite Hrun. cbn [result trace fst snd].
    split; [|split; [reflexivity|unfold itinerary_request; apply schedule_requests]].
    destruct max as [|m]; [exact He|].
    cbn [most_recent_error Nat.add] in He. now apply attempt_error_text in He.
  - destruct (generate_success_or_failure max base gclient destination days interests)
      as [H|[Hnone [H|[e H]]]].
    + now left.
    + right. split; [exact Hnone|now left].
    + right. split; [exact Hnone|]. right. now exists e.
Qed.

(** The scenario of the specification: malformed JSON on all five
    attempts gives the exhaustion message with the error description of
    attempt 5. *)
Lemma exhaustion_after_five_malformed :
  result (generate_student_itinerary (Some (Examples.answering "not json"))
            "Goa, India" 3 "beaches, food")
  = ("Failed to generate itinerary after multiple retries. Last known error: AI response format error (Attempt 5): Failed to parse JSON response. Details: Expecting value: line 1 column 1 (char 0)",
     PyNone)
  /\ requests (trace (generate_student_itinerary (Some (Examples.answering "not json"))
                        "Goa, India" 3 "beaches, food")) = 5.
Proof.
  destruct (exhaustion_reports_last_error MAX_RETRIES INITIAL_DELAY
              (Some (Examples.answering "not json")) "Goa, India" 3 "beaches, food")
    as [H _].
  destruct (H (Examples.answering "not json") eq_refl) as (e & He & Hres & Hreq).
  - intros k _. apply answering_not_json_fails.
  - vm_compute in He. subst e. split; [exact Hres|exact Hreq].
Defined.

(** The error descriptions count attempts from 1. *)
Example format_error_attempt_5 :
  exhausted_message (format_error 4 "Expecting value: line 1 column 1 (char 0)")
  = "Failed to generate itinerary after multiple retries. Last known error: AI response format error (Attempt 5): Failed to parse JSON response. Details: Expecting value: line 1 column 1 (char 0)".
Proof. reflexivity. Qed.

(** A provider that cannot be reached: five requests, the delays 1, 2,
    4 and 8 between them, and the error of the fifth attempt. *)
Example exhaustion_after_five_transport_errors :
  generate_student_itinerary (Some (Examples.unreachable "timed out"))
    "Goa, India" 3 "beaches, food"
  = ((exhausted_message (connection_error 4 "timed out"), PyNone),
     [ itinerary_request Examples.goa_query; ESleep 1;
       itinerary_request Examples.goa_query; ESleep 2;
       itinerary_request Examples.goa_query; ESleep 4;
       itinerary_request Examples.goa_query; ESleep 8;
       itinerary_request Examples.goa_query ]).
Proof. reflexivity. Qed.

(** A response without text makes [json.loads] raise [TypeError], which
    the outer handler records as a connection error. *)
Example response_without_text_is_retried :
  attempt_result 0 (Response None)
  = inr (connection_error 0
           "the JSON object must be str, bytes or bytearray, not NoneType").
Proof. reflexivity. Qed.

(** C1 (as stated, refuted). A valid request whose first response is a
    JSON list holding a day object without theme, plan and tip is
    answered with the success status and that very list: the result is
    neither a fully valid Itinerary nor an explicit failure. *)
Lemma guarantee_fails_on_missing_fields :
  valid_request "Goa, India" 3 "beaches, food"
  /\ result (generate_student_itinerary
               (Some (Examples.answering Examples.missing_fields_text))
               "Goa, India" 3 "beaches, food")
     = (success_message, PyList [PyDict [("day", PyInt 1)]])
  /\ well_formed_itinerary (PyList [PyDict [("day", PyInt 1)]]) = false
  /\ ~ guarantee_as_specified.
Proof.
  assert (Hvalid : valid_request "Goa, India" 3 "beaches, food")
    by (repeat split; [discriminate|lia|lia|discriminate]).
  assert (Hrun : result (generate_student_itinerary
                           (Some (Examples.answering Examples.missing_fields_text))
                           "Goa, India" 3 "beaches, food")
                 = (success_message, PyList [PyDict [("day", PyInt 1)]]))
    by (vm_compute; reflexivity).
  split; [exact Hvalid|]. split; [exact Hrun|]. split; [reflexivity|].
  intro Hspec.
  specialize (Hspec (Some (Examples.answering Examples.missing_fields_text))
                "Goa, India" 3%Z "beaches, food" Hvalid).
  cbn zeta in Hspec. rewrite Hrun in Hspec.
  destruct Hspec as [[_ Hwf]|[Hnone _]]; discriminate.
Qed.

(** C1 (amended). For every valid request the generator returns either
    the success status together with the value decoded from the first
    response that parses as JSON, whatever its shape, or an explicit
    failure (the not-initialised or the exhaustion message) together
    with [None]. *)
Theorem generate_returns_decoded_or_failure (max : nat) (base : Z)
  (gclient : option Client) (destination : string) (days : Z) (interests : string) :
  valid_request destination days interests ->
  let query := user_query destination days interests in
  let r := result (generate_student_itinerary_with max base gclient
                     destination days interests) in
  (exists client k text v,
      gclient = Some client
      /\ k < max
      /\ (forall j, j < k -> attempt_fails client query j)
      /\ provider_outcome client query k = Response (Some text)
      /\ loads (Some text) = Loaded v
      /\ r = (success_message, v))
  \/ explicit_failure r.
Proof.
  intros _ query r. subst r. destruct gclient as [client|].
  - destruct (generate_cases max base client destination days interests)
      as [(k & v & Hk & Hprev & Hv & Hrun)|(_ & e & _ & Hrun)]; rewrite Hrun.
    + left. apply attempt_result_decoded in Hv. destruct Hv as (text & Hout & Hloads).
      exists client, k, text, v. repeat split; assumption.
    + right. split; [reflexivity|]. right. now exists e.
  - right. split; [reflexivity|]. now left.
Qed.

(** A valid request answered by a well-formed payload, and one sent
    without a client. *)
Lemma generate_returns_decoded_or_failure_goa :
  (exists client k text v,
      Some (Examples.answering Examples.goa_text) = Some client
      /\ k < MAX_RETRIES
      /\ (forall j, j < k -> attempt_fails client Examples.goa_query j)
      /\ provider_outcome client Examples.goa_query k = Response (Some text)
      /\ loads (Some text) = Loaded v
      /\ result (generate_student_itinerary (Some (Examples.answering Examples.goa_text))
                   "Goa, India" 3 "beaches, food") = (success_message, v))
  \/ explicit_failure
       (result (generate_student_itinerary (Some (Examples.answering Examples.goa_text))
                  "Goa, India" 3 "beaches, food")).
Proof.
  apply (generate_returns_decoded_or_failure MAX_RETRIES INITIAL_DELAY
           (Some (Examples.answering Examples.goa_text)) "Goa, India" 3 "beaches, food").
  repeat split; [discriminate|lia|lia|discriminate].
Defined.

(** C2 (as stated, refuted). A first response that is JSON but violates
    the required shape (a day object with missing fields) is a
    DecodeError in the specification's sense, yet the run makes one
    request only: no second attempt is triggered. *)
Lemma retry_not_triggered_by_schema_violation :
  spec_attempt_fails
    (provider_outcome (Examples.answering Examples.missing_fields_text)
       Examples.goa_query 0)
  /\ requests (trace (generate_student_itinerary
                        (Some (Examples.answering Examples.missing_fields_text))
                        "Goa, India" 3 "beaches, food")) = 1
  /\ ~ retry_as_specified.
Proof.
  assert (Hfail : forall j,
             spec_attempt_fails
               (provider_outcome (Examples.answering Examples.missing_fields_text)
                  Examples.goa_query j))
    by (intro j; vm_compute; reflexivity).
  assert (Hreq : requests (trace (generate_student_itinerary
                                    (Some (Examples.answering Examples.missing_fields_text))
                                    "Goa, India" 3 "beaches, food")) = 1)
    by (vm_compute; reflexivity).
  split; [apply Hfail|]. split; [exact Hreq|].
  intro Hspec.
  specialize (Hspec (Examples.answering Examples.missing_fields_text)
                "Goa, India" 3%Z "beaches, food" 0).
  rewrite Hreq in Hspec.
  assert (1 < 1); [|lia].
  apply Hspec; [unfold MAX_RETRIES; lia|].
  intros j _. apply Hfail.
Qed.

(** C2 (amended). A response text that is not valid JSON on attempt
    [k], with [k] not the last attempt, triggers attempt [k + 1], and a
    transport error on attempt [k] does the same: two providers that
    differ only in which of the two happens on attempt [k] give the
    same run (same result, same requests, same delays), and that run
    goes on with the delay and the request of attempt [k + 1]. *)
Theorem decode_and_transport_errors_retried_alike (max : nat) (base : Z)
  (c1 c2 : Client) (destination : string) (days : Z) (interests : string)
  (k : nat) (e1 text e2 : string) :
  let query := user_query destination days interests in
  S k < max ->
  (forall j, j < k -> attempt_fails c1 query j) ->
  (forall j, j <> k -> provider_outcome c1 query j = provider_outcome c2 query j) ->
  provider_outcome c1 query k = Raised e1 ->
  provider_outcome c2 query k = Response (Some text) ->
  loads (Some text) = RaisedJSONDecodeError e2 ->
  generate_student_itinerary_with max base (Some c1) destination days interests
  = generate_student_itinerary_with max base (Some c2) destination days interests
  /\ exists rest,
      trace (generate_student_itinerary_with max base (Some c2)
               destination days interests)
      = (backoff_schedule base (itinerary_request query) 0 (S k)
         ++ ESleep (base * 2 ^ Z.of_nat k) :: itinerary_request query :: rest)%list.
Proof.
  intros query Hk Hprev Hagree H1 H2 Hloads.
  assert (Hf1 : attempt_result k (provider_outcome c1 query k)
                = inr (connection_error k e1))
    by (rewrite H1; apply attempt_result_raised).
  assert (Hf2 : attempt_result k (provider_outcome c2 query k)
                = inr (format_error k e2))
    by (rewrite H2; now apply attempt_result_malformed).
  assert (Hsame :
            generate_student_itinerary_with max base (Some c1) destination days interests
            = generate_student_itinerary_with max base (Some c2) destination days interests).
  { unfold generate_student_itinerary_with. fold query.
    apply (retry_loop_same_failure max base query c1 c2 k _ _ max 0 _
             eq_refl ltac:(lia) Hk Hagree Hf1 Hf2). }
  split; [exact Hsame|].
  rewrite <- Hsame.
  assert (Hlong : exists n,
             k + 2 <= n
             /\ trace (generate_student_itinerary_with max base (Some c1)
                         destination days interests)
                = backoff_schedule base (itinerary_request query) 0 n).
  { destruct (generate_cases max base c1 destination days interests)
      as [(k' & v & Hk' & Hprev' & Hv & Hrun)|(_ & e & _ & Hrun)].
    - exists (S k'). split; [|now rewrite Hrun].
      destruct (Nat.lt_ge_cases k k') as [Hlt|Hge]; [lia|].
      destruct (Nat.eq_dec k' k) as [->|Hne]; [fold query in Hv; congruence|].
      destruct (Hprev k' ltac:(lia)) as [e He]. fold query in Hv. congruence.
    - exists max. split; [lia|now rewrite Hrun]. }
  destruct Hlong as (n & Hn & Ht). rewrite Ht.
  destruct (schedule_prefix base (itinerary_request query) n (S (S k)) 0 ltac:(lia))
    as [rest Hrest].
  exists rest. rewrite Hrest, schedule_extend, <- app_assoc. reflexivity.
Qed.

(** A transport error and a malformed text on the first of five
    attempts, followed by a well-formed payload. *)
Lemma decode_and_transport_errors_retried_alike_goa :
  generate_student_itinerary (Some Examples.transport_then_goa)
    "Goa, India" 3 "beaches, food"
  = generate_student_itinerary (Some Examples.malformed_then_goa)
      "Goa, India" 3 "beaches, food"
  /\ exists rest,
      trace (generate_student_itinerary (Some Examples.malformed_then_goa)
               "Goa, India" 3 "beaches, food")
      = (backoff_schedule INITIAL_DELAY (itinerary_request Examples.goa_query) 0 1
         ++ ESleep (INITIAL_DELAY * 2 ^ Z.of_nat 0)
            :: itinerary_request Examples.goa_query :: rest)%list.
Proof.
  apply (decode_and_transport_errors_retried_alike MAX_RETRIES INITIAL_DELAY
           Examples.transport_then_goa Examples.malformed_then_goa
           "Goa, India" 3 "beaches, food" 0
           "connection reset" "not json" "Expecting value: line 1 column 1 (char 0)").
  - unfold MAX_RETRIES. lia.
  - intros j Hj. lia.
  - intros [|j] Hj; [contradiction|reflexivity].
  - reflexivity.
  - reflexivity.
  - vm_compute. reflexivity.
Defined.

Lemma recovering_fails_before (k : nat) (text query : string) (j : nat) :
  j < k -> attempt_fails (Examples.recovering k text) query j.
Proof.
  intro Hj. exists (format_error j "Expecting value: line 1 column 1 (char 0)").
  unfold provider_outcome, Examples.recovering, Examples.scripted. cbn [generate_content].
  replace (j <? k) with true by (symmetry; now apply Nat.ltb_lt).
  apply attempt_result_malformed. exact loads_not_json.
Qed.

(** C10. On an attempt whose response text parses as JSON the generator
    returns exactly the decoded value under the success status, with no
    check of its shape.  For the texts [null], [42], the empty list and
    a day object with missing fields the success status comes with a
    payload that is not a well-formed Itinerary; for [null] the payload
    is [None] itself. *)
Theorem parsed_value_returned_unvalidated :
  (forall (max : nat) (base : Z) (client : Client)
          (destination : string) (days : Z) (interests : string)
          (k : nat) (text : string) (v : pyvalue),
      k < max ->
      (forall j, j < k ->
         attempt_fails client (user_query destination days interests) j) ->
      provider_outcome client (user_query destination days interests) k
      = Response (Some text) ->
      loads (Some text) = Loaded v ->
      result (generate_student_itinerary_with max base (Some client)
                destination days interests)
      = (success_message, v))
  /\ (forall text v,
        In (text, v)
           [ ("null", PyNone); ("42", PyInt 42); ("[]", PyList []);
             (Examples.missing_fields_text, PyList [PyDict [("day", PyInt 1)]]) ] ->
        result (generate_student_itinerary (Some (Examples.answering text))
                  "Goa, India" 3 "beaches, food")
        = (success_message, v)
        /\ well_formed_itinerary v = false).
Proof.
  split.
  - intros max base client destination days interests k text v Hk Hprev Hout Hloads.
    assert (Hv : attempt_result k
                   (provider_outcome client (user_query destination days interests) k)
                 = inl v)
      by (apply attempt_result_decoded; now exists text).
    now rewrite (generate_first_success max base client destination days interests
                   k v Hk Hprev Hv).
  - intros text v Hin. cbn [In] in Hin.
    destruct Hin as [H|[H|[H|[H|[]]]]]; injection H as <- <-;
      (split; [vm_compute; reflexivity|reflexivity]).
Qed.

(** Malformed text on four attempts, then the text [null]: the fifth
    attempt returns [None] under the success status. *)
Lemma parsed_null_returned_after_retries :
  result (generate_student_itinerary (Some (Examples.recovering 4 "null"))
            "Goa, India" 3 "beaches, food")
  = (success_message, PyNone).
Proof.
  apply (proj1 parsed_value_returned_unvalidated MAX_RETRIES INITIAL_DELAY
           (Examples.recovering 4 "null") "Goa, India" 3%Z "beaches, food"
           4 "null" PyNone).
  - unfold MAX_RETRIES. lia.
  - intros j Hj. now apply recovering_fails_before.
  - reflexivity.
  - reflexivity.
Defined.

(** A day whose required plan is the empty list is returned under the
    success status as well. *)
Example empty_plan_returned :
  exists v,
    result (generate_student_itinerary (Some (Examples.answering Examples.empty_plan_text))
              "Goa, India" 3 "beaches, food")
    = (success_message, v)
    /\ well_formed_itinerary v = false.
Proof. eexists. split; vm_compute; reflexivity. Qed.

(** ** The missing client *)

(** C6. When the credential is empty or the construction of the client
    fails, [GEMINI_CLIENT] is [None], and then both operations fail fast
    with a description and send nothing to the provider: the generator
    returns the not-initialised message with [None], the chat page
    reports itself unavailable and leaves the session state as it is;
    this also holds when the script runner stops the run of the page. *)
Theorem unconfigured_client_fails_fast (environ_value : option string) (fallback : string)
  (genai_Client : string -> Client + string)
  (max : nat) (base : Z) (destination : string) (days : Z) (interests : string)
  (prompt : option string) (session_state : SessionState) :
  let api_key := API_KEY environ_value fallback in
  let GEMINI_CLIENT := result (init_GEMINI_CLIENT api_key genai_Client) in
  (api_key = "" \/ exists e, genai_Client api_key = inr e) ->
  GEMINI_CLIENT = None
  /\ generate_student_itinerary_with max base GEMINI_CLIENT destination days interests
     = ((not_initialized_message, PyNone), [])
  /\ render_chat_page RunsThrough GEMINI_CLIENT prompt session_state
     = (session_state, [EStError unavailable_message])
  /\ requests (trace (generate_student_itinerary_with max base GEMINI_CLIENT
                        destination days interests)) = 0
  /\ requests (trace (render_chat_page RunsThrough GEMINI_CLIENT prompt
                        session_state)) = 0
  /\ (forall control,
        result (render_chat_page control GEMINI_CLIENT prompt session_state)
        = session_state
        /\ requests (trace (render_chat_page control GEMINI_CLIENT prompt
                              session_state)) = 0).
Proof.
  intros api_key GEMINI_CLIENT Hkey.
  assert (Hnone : GEMINI_CLIENT = None).
  { subst GEMINI_CLIENT. unfold init_GEMINI_CLIENT.
    destruct Hkey as [->|[e He]]; [reflexivity|].
    rewrite He. now destruct (truthy api_key). }
  rewrite Hnone. repeat (split; [reflexivity|]).
  intros [|[|[|[|n]]]]; split; reflexivity.
Qed.

(** The environment variable set to the empty string. *)
Lemma unconfigured_client_empty_key :
  result (init_GEMINI_CLIENT (API_KEY (Some "") "fallback-key")
            (fun _ => inl (Examples.answering Examples.goa_text))) = None
  /\ generate_student_itinerary
       (result (init_GEMINI_CLIENT (API_KEY (Some "") "fallback-key")
                  (fun _ => inl (Examples.answering Examples.goa_text))))
       "Goa, India" 3 "beaches, food"
     = ((not_initialized_message, PyNone), [])
  /\ render_chat_page RunsThrough
       (result (init_GEMINI_CLIENT (API_KEY (Some "") "fallback-key")
                  (fun _ => inl (Examples.answering Examples.goa_text))))
       (Some "hi") new_session
     = (new_session, [EStError unavailable_message]).
Proof.
  destruct (unconfigured_client_fails_fast (Some "") "fallback-key"
              (fun _ => inl (Examples.answering Examples.goa_text))
              MAX_RETRIES INITIAL_DELAY "Goa, India" 3 "beaches, food"
              (Some "hi") new_session)
    as (H1 & H2 & H3 & _).
  - left. reflexivity.
  - split; [exact H1|]. split; [exact H2|exact H3].
Defined.

(** ** The chat page *)

Lemma string_app_nil_r (s : string) : s ++ "" = s.
Proof. induction s as [|c s IH]; cbn; [reflexivity|now rewrite IH]. Qed.

Lemma string_app_assoc (s1 s2 s3 : string) : (s1 ++ s2) ++ s3 = s1 ++ (s2 ++ s3).
Proof. induction s1 as [|c s1 IH]; cbn; [reflexivity|now rewrite IH]. Qed.

Lemma concat_empty_sep_cons (s : string) (l : list string) :
  String.concat "" (s :: l) = s ++ String.concat "" l.
Proof. destruct l; cbn; [now rewrite string_app_nil_r|reflexivity]. Qed.

Lemma concat_empty_sep_app (l1 l2 : list string) :
  String.concat "" (l1 ++ l2) = String.concat "" l1 ++ String.concat "" l2.
Proof.
  induction l1 as [|s l1 IH]; [reflexivity|].
  rewrite <- app_comm_cons, !concat_empty_sep_cons, IH. now rewrite string_app_assoc.
Qed.

Lemma chunk_texts_filter (chunks : list Chunk) :
  chunk_texts chunks = filter truthy (map text_of chunks).
Proof.
  unfold chunk_texts.
  induction chunks as [|[[t|]] chunks IH]; cbn [flat_map map filter]; [reflexivity| |].
  - unfold text_of at 1. cbn [chunk_text]. destruct (truthy t); cbn [app]; now rewrite IH.
  - unfold text_of at 1. cbn [chunk_text truthy app]. exact IH.
Qed.

Lemma chunk_texts_app (cs1 cs2 : list Chunk) :
  chunk_texts (cs1 ++ cs2) = (chunk_texts cs1 ++ chunk_texts cs2)%list.
Proof. unfold chunk_texts. apply flat_map_app. Qed.

(** [st.write_stream] returns what it started from followed by the
    chunks, in order. *)
Lemma st_write_stream_result (stream : list string) (streamed_response : string) :
  result (st_write_stream stream streamed_response)
  = streamed_response ++ String.concat "" stream.
Proof.
  revert streamed_response.
  induction stream as [|chunk stream IH]; intro streamed_response.
  - cbn. now rewrite string_app_nil_r.
  - rewrite concat_empty_sep_cons. cbn [st_write_stream].
    destruct chunk as [|c chunk]; cbn [truthy].
    + now rewrite IH.
    + unfold Effects.bind, emit.
      specialize (IH (streamed_response ++ String c chunk)).
      destruct (st_write_stream stream (streamed_response ++ String c chunk)) as [r t].
      cbn [result fst] in *. now rewrite IH, string_app_assoc.
Qed.

Lemma write_chunks_result (chunks : list Chunk) :
  result (write_chunks chunks) = concat_texts chunks.
Proof.
  unfold write_chunks, concat_texts.
  now rewrite st_write_stream_result, chunk_texts_filter.
Qed.

Lemma concat_texts_app (cs1 cs2 : list Chunk) :
  concat_texts (cs1 ++ cs2) = concat_texts cs1 ++ concat_texts cs2.
Proof.
  unfold concat_texts. now rewrite map_app, filter_app, concat_empty_sep_app.
Qed.

Lemma concat_texts_single (c : Chunk) : concat_texts [c] = text_of c.
Proof.
  unfold concat_texts. cbn. now destruct (text_of c).
Qed.

(** The script runner that never stops the script. *)
Lemma st_shown_through {A : Type} (m : Run A) :
  st_shown m RunsThrough = (Some (result m, RunsThrough), trace m).
Proof. now destruct m. Qed.

(** A part of the script under a runner that stops it at some step. *)
Lemma st_shown_stops {A : Type} (m : Run A) (n : nat) :
  st_shown m (StopsAt n)
  = if n <? length (trace m) then (None, firstn n (trace m))
    else (Some (result m, StopsAt (n - length (trace m))), trace m).
Proof. now destruct m. Qed.

Lemma write_chunks_steps (chunks : list Chunk) :
  length (trace (write_chunks chunks)) = length (chunk_texts chunks).
Proof.
  unfold write_chunks.
  assert (H : forall stream acc,
             length (trace (st_write_stream stream acc)) = length (filter truthy stream)).
  { induction stream as [|chunk stream IH]; intro acc; [reflexivity|].
    cbn [st_write_stream filter]. destruct (truthy chunk); [|apply IH].
    unfold Effects.bind, emit. specialize (IH (acc ++ chunk)).
    destruct (st_write_stream stream (acc ++ chunk)) as [r t].
    cbn [trace snd length app] in *. now rewrite IH. }
  rewrite H. f_equal.
  unfold chunk_texts.
  induction chunks as [|[[t|]] chunks IH]; cbn [flat_map chunk_text]; [reflexivity| |].
  - destruct (truthy t) eqn:Ht; cbn [app]; [|exact IH].
    cbn [filter]. now rewrite Ht, IH.
  - exact IH.
Qed.

(** A turn under a runner that lets its first two steps through. *)
Lemma chat_turn_after_display (n : nat) (client : Client) (log : list ChatMessage)
  (prompt : string) :
  result (chat_turn (StopsAt (S (S n))) client log prompt)
  = let messages := (log ++ [ {| role := "user"; content := prompt |} ])%list in
    match generate_content_stream client "gemini-2.5-flash" (get_api_contents messages)
            chat_config
    with
    | StreamRaised e =>
        match n with
        | 0 => messages
        | S _ => result (chat_failure messages e)
        end
    | Streamed chunks failure =>
        if n <? length (chunk_texts chunks) then messages
        else match failure with
             | None =>
                 (messages ++ [ {| role := "model";
                                   content := result (write_chunks chunks) |} ])%list
             | Some e =>
                 match n - length (chunk_texts chunks) with
                 | 0 => messages
                 | S _ => result (chat_failure messages e)
                 end
             end
    end.
Proof.
  unfold chat_turn. cbn zeta.
  destruct (generate_content_stream client "gemini-2.5-flash" _ chat_config)
    as [e|chunks failure].
  - destruct n; reflexivity.
  - destruct (n <? length (chunk_texts chunks)) eqn:Hn;
      [|destruct failure as [e|];
        [destruct (n - length (chunk_texts chunks)) eqn:Hrest|]];
      cbn [st_shown emit Effects.bind st_static length Nat.ltb Nat.leb Nat.sub app ret
           result fst];
      rewrite Nat.sub_0_r; unfold Effects.bind;
      rewrite st_shown_stops, write_chunks_steps, Hn, ?Hrest;
      destruct (write_chunks chunks); reflexivity.
Qed.

(** What a turn leaves in the log, by what the streaming call did and
    by where the script runner stops the script: the user message
    alone when the script is stopped within the steps of the turn, the
    user message and the reply otherwise. *)
Lemma chat_turn_result_under (control : script_control) (client : Client)
  (log : list ChatMessage) (prompt : string) :
  result (chat_turn control client log prompt)
  = if stops_within control (turn_steps client log prompt)
    then (log ++ [ {| role := "user"; content := prompt |} ])%list
    else (log ++ [ {| role := "user"; content := prompt |};
                   {| role := "model";
                      content :=
                        match generate_content_stream client "gemini-2.5-flash"
                                (get_api_contents
                                   (log ++ [ {| role := "user"; content := prompt |} ]))
                                chat_config
                        with
                        | Streamed chunks None => result (write_chunks chunks)
                        | Streamed _ (Some e) | StreamRaised e => "An error occurred: " ++ e
                        end |} ])%list.
Proof.
  destruct control as [|[|[|n]]].
  - unfold chat_turn.
    cbn [st_shown emit Effects.bind st_static app ret result fst stops_within].
    destruct (generate_content_stream client "gemini-2.5-flash" _ chat_config)
      as [e|chunks [e|]].
    + cbn. now rewrite <- app_assoc.
    + unfold Effects.bind. rewrite st_shown_through.
      destruct (write_chunks chunks). cbn. now rewrite <- app_assoc.
    + unfold Effects.bind. rewrite st_shown_through.
      destruct (write_chunks chunks). cbn. now rewrite <- app_assoc.
  - reflexivity.
  - reflexivity.
  - rewrite chat_turn_after_display. cbn zeta. unfold turn_steps.
    set (outcome := generate_content_stream client "gemini-2.5-flash" _ chat_config).
    change (stops_within (StopsAt (S (S n))) (2 + ?x)) with (n <? x).
    destruct outcome as [e|chunks [e|]].
    + destruct n; [reflexivity|]. cbn. now rewrite <- app_assoc.
    + destruct (Nat.ltb_spec n (length (chunk_texts chunks))) as [Hlt|Hge].
      * replace (n <? length (chunk_texts chunks) + 1) with true
          by (symmetry; apply Nat.ltb_lt; lia).
        reflexivity.
      * destruct (Nat.ltb_spec n (length (chunk_texts chunks) + 1)) as [Hlt1|Hge1].
        -- replace (n - length (chunk_texts chunks)) with 0 by lia. reflexivity.
        -- replace (n - length (chunk_texts chunks))
             with (S (n - length (chunk_texts chunks) - 1)) by lia.
           cbn. now rewrite <- app_assoc.
    + destruct (n <? length (chunk_texts chunks)); [reflexivity|].
      now rewrite <- app_assoc.
Qed.

(** The reply a turn stores when the script runs through, by what the
    streaming call did. *)
Lemma chat_turn_result (client : Client) (log : list ChatMessage) (prompt : string) :
  result (chat_turn RunsThrough client log prompt)
  = (log ++ [ {| role := "user"; content := prompt |};
              {| role := "model";
                 content :=
                   match generate_content_stream client "gemini-2.5-flash"
                           (get_api_contents
                              (log ++ [ {| role := "user"; content := prompt |} ]))
                           chat_config
                   with
                   | Streamed chunks None => result (write_chunks chunks)
                   | Streamed _ (Some e) | StreamRaised e => "An error occurred: " ++ e
                   end |} ])%list.
Proof. now rewrite chat_turn_result_under. Qed.

Lemma display_history_steps (log : list ChatMessage) :
  length (trace (display_history log)) = length log.
Proof.
  unfold display_history.
  induction log as [|msg log IH]; [reflexivity|].
  cbn [for_each]. unfold Effects.bind at 1, emit.
  destruct (for_each _ log) as [[] t]. cbn [trace snd length app] in *. now rewrite IH.
Qed.

Lemma render_chat_page_result (client : Client) (prompt : option string)
  (s : SessionState) :
  result (render_chat_page RunsThrough (Some client) prompt s)
  = {| messages :=
         Some (match prompt with
               | Some p => if truthy p
                           then result (chat_turn RunsThrough client (current_log s) p)
                           else current_log s
               | None => current_log s
               end) |}.
Proof.
  unfold render_chat_page, current_log. cbn [st_static].
  rewrite st_shown_through.
  destruct (display_history
              match messages s with Some m => m | None => [greeting] end) as [[] t0].
  unfold Effects.bind. cbn [result trace fst snd st_static].
  destruct prompt as [p|]; [|reflexivity].
  destruct (truthy p); [|reflexivity].
  now destruct (chat_turn RunsThrough client
                  match messages s with Some m => m | None => [greeting] end p).
Qed.

(** A run of the page that the script runner lets reach the turn: the
    two calls of the header, the display of the log and [st.chat_input]
    are [3 + length log] steps, and the turn runs under what is left. *)
Lemma render_chat_page_reaches_turn (k : nat) (client : Client) (prompt : string)
  (s : SessionState) :
  truthy prompt = true ->
  result (render_chat_page (StopsAt (3 + length (current_log s) + k)) (Some client)
            (Some prompt) s)
  = {| messages := Some (result (chat_turn (StopsAt k) client (current_log s) prompt)) |}.
Proof.
  intro Hprompt.
  unfold render_chat_page, current_log. cbn [st_static Nat.ltb Nat.leb Nat.add Nat.sub].
  rewrite st_shown_stops, display_history_steps.
  set (log := match messages s with Some m => m | None => [greeting] end).
  replace (S (length log + k) <? length log) with false
    by (symmetry; apply Nat.ltb_ge; lia).
  replace (S (length log + k) - length log) with (S k) by lia.
  unfold Effects.bind. cbn [result trace fst snd st_static Nat.ltb Nat.leb Nat.sub].
  rewrite Hprompt, Nat.sub_0_r.
  now destruct (chat_turn (StopsAt k) client log prompt).
Qed.

(** C7 (as stated, refuted). The provider streams [Hel] and [lo!]; the
    script runner stops the script in the step that would show [lo!].
    The turn leaves the user message without a reply: the log is one
    message longer, not two.  Seen from the page, on a new session: the
    run is stopped in its eighth step, after the greeting, the prompt
    and [Hel] have been shown. *)
Lemma stopped_turn_keeps_user_message_only :
  result (chat_turn (StopsAt 3) Examples.hello_client [greeting] "hi")
  = [ greeting; {| role := "user"; content := "hi" |} ]
  /\ render_chat_page (StopsAt 7) (Some Examples.hello_client) (Some "hi") new_session
     = ({| messages := Some [ greeting; {| role := "user"; content := "hi" |} ] |},
        [ EStChatWrite "model" "🤖" (content greeting);
          EStChatWrite "user" "🚶" "hi";
          EGenerateContentStream "gemini-2.5-flash"
            (get_api_contents [ greeting; {| role := "user"; content := "hi" |} ])
            chat_config;
          EStStreamChunk "Hel" ])
  /\ length (result (chat_turn (StopsAt 3) Examples.hello_client [greeting] "hi"))
     = length [greeting] + 1
  /\ ~ two_messages_as_specified.
Proof.
  split; [reflexivity|]. split; [reflexivity|]. split; [reflexivity|].
  intro Hspec.
  destruct (Hspec (StopsAt 3) Examples.hello_client [greeting] "hi") as [reply H].
  discriminate H.
Qed.

(** C7 (amended). A chat turn that the script runner lets run through
    adds exactly two messages to the log, whatever the provider does:
    the user message, then one model message holding the accumulated
    text of the stream when it ended normally, or the error description
    when the call or the stream failed; the log is two messages longer.
    A turn that the script runner stops in one of its steps (the
    display of the prompt, the container of the reply, a chunk shown,
    the display of the error) adds the user message alone. *)
Theorem chat_turn_appends_two (control : script_control) (client : Client)
  (prompt : string) (s : SessionState) :
  truthy prompt = true ->
  let before := current_log s in
  let user_message := {| role := "user"; content := prompt |} in
  let reply :=
    match generate_content_stream client "gemini-2.5-flash"
            (get_api_contents (before ++ [user_message])) chat_config
    with
    | Streamed chunks None => result (write_chunks chunks)
    | Streamed _ (Some e) | StreamRaised e => "An error occurred: " ++ e
    end in
  let completed :=
    (before ++ [ user_message; {| role := "model"; content := reply |} ])%list in
  let after := result (render_chat_page RunsThrough (Some client) (Some prompt) s) in
  (messages after = Some completed
   /\ length (current_log after) = length before + 2)
  /\ result (chat_turn control client before prompt)
     = (if stops_within control (turn_steps client before prompt)
        then (before ++ [user_message])%list
        else completed)
  /\ (forall k,
        messages (result (render_chat_page (StopsAt (3 + length before + k))
                            (Some client) (Some prompt) s))
        = Some (if k <? turn_steps client before prompt
                then (before ++ [user_message])%list
                else completed)).
Proof.
  intros Hprompt before user_message reply completed after.
  subst after. rewrite render_chat_page_result, Hprompt, chat_turn_result.
  fold before. fold user_message. fold reply. fold completed.
  split; [split; [reflexivity|]|].
  - unfold current_log. cbn [messages]. subst completed.
    rewrite length_app. cbn [length]. lia.
  - split; [apply chat_turn_result_under|].
    intro k. subst before.
    rewrite render_chat_page_reaches_turn by exact Hprompt.
    cbn [messages]. now rewrite chat_turn_result_under.
Qed.

(** The scenario of the specification: on the log that holds the
    greeting, the user sends [hi] and the provider streams [Hel] and
    [lo!] (with two chunks without text in between).  The turn stores
    the prompt and [Hello!]; stopped in the step that would show [lo!],
    it stores the prompt alone. *)
Lemma chat_turn_hello :
  (messages (result (render_chat_page RunsThrough (Some Examples.hello_client)
                       (Some "hi") new_session))
   = Some [ greeting; {| role := "user"; content := "hi" |};
            {| role := "model"; content := "Hello!" |} ]
   /\ length (current_log (result (render_chat_page RunsThrough
                                     (Some Examples.hello_client) (Some "hi")
                                     new_session))) = 3)
  /\ result (chat_turn (StopsAt 3) Examples.hello_client [greeting] "hi")
     = [ greeting; {| role := "user"; content := "hi" |} ]
  /\ (forall k,
        messages (result (render_chat_page (StopsAt (4 + k)) (Some Examples.hello_client)
                            (Some "hi") new_session))
        = Some (if k <? 4
                then [ greeting; {| role := "user"; content := "hi" |} ]
                else [ greeting; {| role := "user"; content := "hi" |};
                       {| role := "model"; content := "Hello!" |} ])).
Proof.
  exact (chat_turn_appends_two (StopsAt 3) Examples.hello_client "hi" new_session
           eq_refl).
Defined.

(** A stream that breaks after its first chunk leaves the error
    description in the log, not the text shown so far. *)
Example chat_turn_broken_stream :
  messages (result (render_chat_page RunsThrough (Some Examples.broken_stream_client)
                      (Some "hi")
                      new_session))
  = Some [ greeting; {| role := "user"; content := "hi" |};
           {| role := "model"; content := "An error occurred: stream closed" |} ].
Proof. reflexivity. Qed.

(** C8. The text accumulated from a stream is the concatenation, in
    arrival order, of the texts of its non-empty chunks; a chunk without
    text changes nothing; accumulating a stream and then one more chunk
    gives the accumulated text followed by that chunk's text, so
    [[c1; c2; c3]] gives the same text as [[c1; c2]] followed by [c3];
    and this text is what a turn whose stream ends normally, and which
    the script runner lets run through, stores as the model message. *)
Theorem chunk_accumulation_in_order :
  (forall chunks, result (write_chunks chunks) = concat_texts chunks)
  /\ (forall cs1 cs2 c,
        text_of c = "" ->
        result (write_chunks (cs1 ++ c :: cs2)) = result (write_chunks (cs1 ++ cs2)))
  /\ (forall chunks c,
        result (write_chunks (chunks ++ [c])) = result (write_chunks chunks) ++ text_of c)
  /\ (forall c1 c2 c3,
        result (write_chunks [c1; c2; c3])
        = result (write_chunks [c1; c2]) ++ text_of c3)
  /\ (forall cs1 cs2,
        result (write_chunks (cs1 ++ cs2))
        = result (write_chunks cs1) ++ result (write_chunks cs2))
  /\ (forall client log prompt chunks,
        generate_content_stream client "gemini-2.5-flash"
          (get_api_contents (log ++ [ {| role := "user"; content := prompt |} ]))
          chat_config
        = Streamed chunks None ->
        result (chat_turn RunsThrough client log prompt)
        = (log ++ [ {| role := "user"; content := prompt |};
                    {| role := "model"; content := concat_texts chunks |} ])%list).
Proof.
  assert (Happ : forall cs1 cs2,
             result (write_chunks (cs1 ++ cs2))
             = result (write_chunks cs1) ++ result (write_chunks cs2))
    by (intros; rewrite !write_chunks_result; apply concat_texts_app).
  assert (Hlast : forall chunks c,
             result (write_chunks (chunks ++ [c]))
             = result (write_chunks chunks) ++ text_of c)
    by (intros; now rewrite Happ, (write_chunks_result [c]), concat_texts_single).
  split; [exact write_chunks_result|].
  split.
  { intros cs1 cs2 c Hc.
    change (c :: cs2) with ([c] ++ cs2)%list.
    rewrite !Happ, (write_chunks_result [c]), concat_texts_single, Hc.
    reflexivity. }
  split; [exact Hlast|].
  split; [intros c1 c2 c3; exact (Hlast [c1; c2] c3)|].
  split; [exact Happ|].
  intros client log prompt chunks Hstream.
  now rewrite chat_turn_result, Hstream, write_chunks_result.
Qed.

(** The stream [Hel], no text, empty text, [lo!] accumulates to
    [Hello!]. *)
Lemma chunk_accumulation_hello :
  result (write_chunks [ {| chunk_text := Some "Hel" |}; {| chunk_text := None |};
                         {| chunk_text := Some "lo!" |} ])
  = result (write_chunks [ {| chunk_text := Some "Hel" |};
                           {| chunk_text := Some "lo!" |} ])
  /\ result (chat_turn RunsThrough Examples.hello_client [greeting] "hi")
     = [ greeting; {| role := "user"; content := "hi" |};
         {| role := "model"; content := "Hello!" |} ].
Proof.
  destruct chunk_accumulation_in_order as (_ & Hskip & _ & _ & _ & Hturn).
  split.
  - apply (Hskip [ {| chunk_text := Some "Hel" |} ] [ {| chunk_text := Some "lo!" |} ]
             {| chunk_text := None |}).
    reflexivity.
  - apply (Hturn Examples.hello_client [greeting] "hi"
             (map (fun t => {| chunk_text := t |}) Examples.hello_chunks)).
    reflexivity.
Defined.

(** What a run of the page leaves, wherever the script runner stops it:
    the session state it found (stopped in the header), the log it
    started from, or what a turn on that log leaves. *)
Lemma render_chat_page_result_under (control : script_control) (client : Client)
  (prompt : option string) (s : SessionState) :
  result (render_chat_page control (Some client) prompt s) = s
  \/ result (render_chat_page control (Some client) prompt s)
     = {| messages := Some (current_log s) |}
  \/ exists control' p,
      prompt = Some p
      /\ truthy p = true
      /\ result (render_chat_page control (Some client) prompt s)
         = {| messages := Some (result (chat_turn control' client (current_log s) p)) |}.
Proof.
  unfold render_chat_page, current_log.
  set (log := match messages s with Some m => m | None => [greeting] end).
  destruct (st_static 2 control) as [c1|]; [|now left].
  unfold Effects.bind.
  destruct (st_shown (display_history log) c1) as [[[[] c2]|] t];
    [|right; left; reflexivity].
  destruct (st_static 1 c2) as [c3|]; [|right; left; reflexivity].
  destruct prompt as [p|]; [|right; left; reflexivity].
  destruct (truthy p) eqn:Hp; [|right; left; reflexivity].
  right. right. exists c3, p. split; [reflexivity|]. split; [exact Hp|].
  now destruct (chat_turn c3 client log p).
Qed.

(** A run of the chat page leaves the session state as it is or stores
    the log it started from, extended at its end. *)
Lemma render_chat_page_appends (control : script_control) (client : option Client)
  (prompt : option string) (s : SessionState) :
  result (render_chat_page control client prompt s) = s
  \/ exists suffix,
      messages (result (render_chat_page control client prompt s))
      = Some (current_log s ++ suffix)%list.
Proof.
  destruct client as [client|].
  - destruct (render_chat_page_result_under control client prompt s)
      as [H|[H|(control' & p & _ & _ & H)]]; [now left| |]; right; rewrite H;
      cbn [messages].
    + exists []. now rewrite app_nil_r.
    + rewrite chat_turn_result_under.
      destruct (stops_within control' (turn_steps client (current_log s) p));
        eexists; reflexivity.
  - left. unfold render_chat_page.
    destruct (st_static 2 control) as [c1|]; [|reflexivity].
    unfold Effects.bind. now destruct (st_shown (emit (EStError unavailable_message)) c1).
Qed.

Lemma reachable_log_greeting (s : SessionState) :
  reachable s ->
  forall log, messages s = Some log -> exists rest, log = greeting :: rest.
Proof.
  induction 1 as [|control client prompt s Hs IH]; intros log Hlog; [discriminate|].
  destruct (render_chat_page_appends control client prompt s) as [Hsame|[suffix Hsuffix]].
  - rewrite Hsame in Hlog. now apply IH.
  - rewrite Hsuffix in Hlog. injection Hlog as <-.
    unfold current_log. destruct (messages s) as [log0|] eqn:Hlog0.
    + destruct (IH log0 eq_refl) as [rest ->]. now exists (rest ++ suffix)%list.
    + now exists suffix.
Qed.

(** C9. A new session has no log; a run of the chat page creates it
    with the single greeting in front, and every run, stopped by the
    script runner or not, keeps the log it found and only adds at its
    end.  So in every reachable session state the log, once it exists,
    starts with the greeting, whose role is the model's. *)
Theorem log_starts_with_greeting (s : SessionState) :
  reachable s ->
  (forall log, messages s = Some log -> exists rest, log = greeting :: rest)
  /\ role greeting = "model"
  /\ messages new_session = None
  /\ (forall control client prompt,
        result (render_chat_page control client prompt s) = s
        \/ exists suffix,
            messages (result (render_chat_page control client prompt s))
            = Some (match messages s with
                    | Some log => log
                    | None => [greeting]
                    end ++ suffix)%list).
Proof.
  intro Hs. split; [now apply reachable_log_greeting|].
  split; [reflexivity|]. split; [reflexivity|].
  intros control client prompt. apply render_chat_page_appends.
Qed.

(** The state after a first turn and a failed second turn. *)
Lemma log_starts_with_greeting_two_turns :
  exists rest,
    messages
      (result (render_chat_page RunsThrough (Some Examples.broken_stream_client)
                 (Some "again")
                 (result (render_chat_page RunsThrough (Some Examples.hello_client)
                            (Some "hi") new_session))))
    = Some (greeting :: rest)
    /\ length rest = 4.
Proof.
  destruct (log_starts_with_greeting
              (result (render_chat_page RunsThrough (Some Examples.broken_stream_client)
                         (Some "again")
                         (result (render_chat_page RunsThrough
                                    (Some Examples.hello_client)
                                    (Some "hi") new_session)))))
    as (H & _).
  - apply reachable_run, reachable_run, reachable_new.
  - destruct (H _ eq_refl) as [rest Hrest].
    exists rest. split; [now rewrite <- Hrest|].
    injection Hrest as <-. reflexivity.
Defined.


(** * Beyond the specification: the rest of the orchestration code *)

Import Text Truth Tools Observed.

(** ** The time spent waiting *)

Lemma sum_backoff_delays (base : Z) (m i : nat) :
  fold_right Z.add 0%Z (map (backoff_delay base) (seq i m))
  = (base * 2 ^ Z.of_nat i * (2 ^ Z.of_nat m - 1))%Z.
Proof.
  revert i. induction m as [|m IH]; intro i.
  - cbn. lia.
  - cbn [seq map fold_right]. rewrite IH. unfold backoff_delay.
    rewrite !Nat2Z.inj_succ, !Z.pow_succ_r by lia. lia.
Qed.

Lemma total_delay_schedule (base : Z) (model : string) (contents : list string)
  (config : GenerateContentConfig) (n : nat) :
  total_delay (backoff_schedule base (EGenerateContent model contents config) 0 n)
  = (base * (2 ^ Z.of_nat (n - 1) - 1))%Z.
Proof.
  unfold total_delay. rewrite schedule_sleeps, sum_backoff_delays.
  cbn [Z.of_nat]. lia.
Qed.

(** X1. The time a run of the generator spends in [time.sleep] is
    [base * (2 ^ (n - 1) - 1)] for the [n] attempts it makes, so with a
    delay base that is not negative it is at most
    [base * (2 ^ (max - 1) - 1)]: 15 seconds with the constants of the
    source. *)
Theorem total_delay_bounded (max : nat) (base : Z) (gclient : option Client)
  (destination : string) (days : Z) (interests : string) :
  (0 <= base)%Z ->
  let t := trace (generate_student_itinerary_with max base gclient
                    destination days interests) in
  (exists n, n <= max /\ requests t = n
             /\ total_delay t = (base * (2 ^ Z.of_nat (n - 1) - 1))%Z)
  /\ (0 <= total_delay t <= base * (2 ^ Z.of_nat (max - 1) - 1))%Z.
Proof.
  intros Hbase t.
  destruct (generate_trace_shape max base gclient destination days interests)
    as (n & Hn & Ht).
  subst t. rewrite Ht. unfold itinerary_request.
  rewrite total_delay_schedule, schedule_requests.
  split; [exists n; repeat split; assumption|].
  assert (H1 : (1 <= 2 ^ Z.of_nat (n - 1))%Z) by (apply Z.pow_le_mono_r with (b := 0%Z); lia).
  assert (H2 : (2 ^ Z.of_nat (n - 1) <= 2 ^ Z.of_nat (max - 1))%Z)
    by (apply Z.pow_le_mono_r; lia).
  nia.
Qed.

(** Five failed attempts wait 15 seconds in all; a first answer that
    decodes waits within the bound. *)
Lemma total_delay_default :
  total_delay (trace (generate_student_itinerary (Some (Examples.unreachable "timed out"))
                        "Goa, India" 3 "beaches, food")) = 15%Z
  /\ (0 <= total_delay (trace (generate_student_itinerary
                                 (Some (Examples.answering Examples.goa_text))
                                 "Goa, India" 3 "beaches, food")) <= 15)%Z.
Proof.
  split; [reflexivity|].
  apply (total_delay_bounded MAX_RETRIES INITIAL_DELAY
           (Some (Examples.answering Examples.goa_text)) "Goa, India" 3 "beaches, food").
  unfold INITIAL_DELAY. lia.
Defined.

(** X2. The not-initialised message is returned exactly when there is
    no client, and a run sends no request exactly when there is no
    client or the maximum is zero: a configured client is always tried
    at least once. *)
Theorem not_initialized_only_without_client (max : nat) (base : Z)
  (gclient : option Client) (destination : string) (days : Z) (interests : string) :
  let run := generate_student_itinerary_with max base gclient
               destination days interests in
  (fst (result run) = not_initialized_message <-> gclient = None)
  /\ (requests (trace run) = 0 <-> gclient = None \/ max = 0).
Proof.
  intro run. subst run. destruct gclient as [client|].
  - assert (Hmsg : fst (result (generate_student_itinerary_with max base (Some client)
                                  destination days interests))
                   <> not_initialized_message).
    { destruct (generate_cases max base client destination days interests)
        as [(k & v & _ & _ & _ & Hrun)|(_ & e & _ & Hrun)]; rewrite Hrun;
        cbv [result fst success_message exhausted_message not_initialized_message append];
        discriminate. }
    assert (Hreq : requests (trace (generate_student_itinerary_with max base (Some client)
                                      destination days interests)) = 0 <-> max = 0).
    { destruct (generate_cases max base client destination days interests)
        as [(k & v & Hk & _ & _ & Hrun)|(_ & e & _ & Hrun)]; rewrite Hrun;
        cbn [result trace fst snd]; unfold itinerary_request;
        rewrite schedule_requests; lia. }
    split.
    + split; [intro H; contradiction|discriminate].
    + rewrite Hreq. split; [now right|intros [H|H]; [discriminate|assumption]].
  - split; split; auto.
Qed.

(** ** The events of the chat page *)

Lemma st_write_stream_trace (stream : list string) (streamed_response : string) :
  trace (st_write_stream stream streamed_response)
  = map EStStreamChunk (filter truthy stream).
Proof.
  revert streamed_response.
  induction stream as [|chunk stream IH]; intro streamed_response; [reflexivity|].
  cbn [st_write_stream filter]. destruct (truthy chunk).
  - unfold Effects.bind, emit.
    specialize (IH (streamed_response ++ chunk)).
    destruct (st_write_stream stream (streamed_response ++ chunk)) as [r t].
    cbn [trace snd] in *. now rewrite IH.
  - apply IH.
Qed.

Lemma chunk_texts_truthy (chunks : list Chunk) :
  filter truthy (chunk_texts chunks) = chunk_texts chunks.
Proof.
  unfold chunk_texts.
  induction chunks as [|[[t|]] chunks IH]; cbn [flat_map chunk_text]; [reflexivity| |].
  - destruct (truthy t) eqn:Ht; cbn [app]; [|exact IH].
    cbn [filter]. now rewrite Ht, IH.
  - exact IH.
Qed.

Lemma write_chunks_trace (chunks : list Chunk) :
  trace (write_chunks chunks) = map EStStreamChunk (chunk_texts chunks).
Proof.
  unfold write_chunks. now rewrite st_write_stream_trace, chunk_texts_truthy.
Qed.

(** The events of a turn that runs through: the prompt is shown, one
    request is sent, the chunks are shown as they come, and a failure
    is shown as an error. *)
Lemma chat_turn_trace (client : Client) (log : list ChatMessage) (prompt : string) :
  trace (chat_turn RunsThrough client log prompt)
  = (EStChatWrite "user" "🚶" prompt
     :: EGenerateContentStream "gemini-2.5-flash"
          (get_api_contents (log ++ [ {| role := "user"; content := prompt |} ]))
          chat_config
     :: match generate_content_stream client "gemini-2.5-flash"
                (get_api_contents (log ++ [ {| role := "user"; content := prompt |} ]))
                chat_config
        with
        | StreamRaised e => [EStError ("An error occurred: " ++ e)]
        | Streamed chunks None => map EStStreamChunk (chunk_texts chunks)
        | Streamed chunks (Some e) =>
            map EStStreamChunk (chunk_texts chunks)
            ++ [EStError ("An error occurred: " ++ e)]
        end)%list.
Proof.
  unfold chat_turn. cbn [st_shown st_static Effects.bind emit app].
  destruct (generate_content_stream client "gemini-2.5-flash"
              (get_api_contents (log ++ [ {| role := "user"; content := prompt |} ]))
              chat_config) as [e|chunks [e|]].
  - reflexivity.
  - unfold Effects.bind. rewrite st_shown_through.
    pose proof (write_chunks_trace chunks) as H.
    destruct (write_chunks chunks) as [r t]. cbn in *. now rewrite H.
  - unfold Effects.bind. rewrite st_shown_through.
    pose proof (write_chunks_trace chunks) as H.
    destruct (write_chunks chunks) as [r t]. cbn in *. now rewrite H, app_nil_r.
Qed.

Lemma display_history_trace (log : list ChatMessage) :
  trace (display_history log)
  = map (fun msg => EStChatWrite (role msg)
                      (if (role msg =? "model")%string then "🤖" else "🚶")
                      (content msg)) log.
Proof.
  unfold display_history.
  induction log as [|msg log IH]; [reflexivity|].
  cbn [for_each map]. unfold Effects.bind at 1, emit.
  destruct (for_each _ log) as [[] t]. cbn [trace snd] in *. now rewrite IH.
Qed.

Lemma render_chat_page_trace (client : Client) (prompt : option string)
  (s : SessionState) :
  trace (render_chat_page RunsThrough (Some client) prompt s)
  = (trace (display_history (current_log s))
     ++ match prompt with
        | Some p =>
            if truthy p then trace (chat_turn RunsThrough client (current_log s) p)
            else []
        | None => []
        end)%list.
Proof.
  unfold render_chat_page, current_log. cbn [st_static].
  rewrite st_shown_through.
  destruct (display_history
              match messages s with Some m => m | None => [greeting] end) as [[] t0].
  unfold Effects.bind. cbn [result trace fst snd st_static].
  destruct prompt as [p|]; [|cbn; now rewrite app_nil_r].
  destruct (truthy p); [|cbn; now rewrite app_nil_r].
  destruct (chat_turn RunsThrough client
              match messages s with Some m => m | None => [greeting] end p) as [r t].
  cbn. now rewrite app_nil_r.
Qed.

Lemma requests_chat_writes (f : ChatMessage -> event) (log : list ChatMessage) :
  (forall m, is_request (f m) = false) -> requests (map f log) = 0.
Proof.
  intro Hf. unfold requests. induction log as [|m log IH]; [reflexivity|].
  cbn [map filter]. now rewrite Hf.
Qed.

Lemma requests_stream_chunks (l : list string) : requests (map EStStreamChunk l) = 0.
Proof. unfold requests. induction l as [|c l IH]; [reflexivity|exact IH]. Qed.

Lemma sleeps_chat_writes (f : ChatMessage -> event) (log : list ChatMessage) :
  (forall m, sleeps [f m] = []) -> sleeps (map f log) = [].
Proof.
  intro Hf. induction log as [|m log IH]; [reflexivity|].
  cbn [map]. change (f m :: map f log) with ([f m] ++ map f log)%list.
  now rewrite sleeps_app, Hf, IH.
Qed.

Lemma sleeps_stream_chunks (l : list string) : sleeps (map EStStreamChunk l) = [].
Proof. induction l as [|c l IH]; [reflexivity|exact IH]. Qed.

Lemma trace_bind {A B : Type} (m : Run A) (k : A -> Run B) :
  trace (Effects.bind m k) = (trace m ++ trace (k (result m)))%list.
Proof.
  unfold Effects.bind. destruct m as [a t1]. cbn [result fst].
  now destruct (k a).
Qed.

(** The events of a part of the script under the runner are the first
    events of the part, and all of them when the part is not stopped. *)
Lemma st_shown_trace {A : Type} (m : Run A) (control : script_control) :
  (exists rest, trace m = (trace (st_shown m control) ++ rest)%list)
  /\ (result (st_shown m control) <> None -> trace (st_shown m control) = trace m).
Proof.
  destruct control as [|n].
  - rewrite st_shown_through. cbn [trace snd].
    split; [exists []; now rewrite app_nil_r|reflexivity].
  - rewrite st_shown_stops. destruct (n <? length (trace m)); cbn [trace snd result fst].
    + split; [exists (skipn n (trace m)); now rewrite firstn_skipn|congruence].
    + split; [exists []; now rewrite app_nil_r|reflexivity].
Qed.

Lemma chat_failure_trace_under (messages : list ChatMessage) (e : string)
  (control : script_control) :
  exists rest,
    [EStError ("An error occurred: " ++ e)]
    = (trace (Effects.bind (st_shown (chat_failure messages e) control)
                (fun handled => match handled with
                                | None => ret messages
                                | Some (messages, _) => ret messages
                                end)) ++ rest)%list.
Proof.
  rewrite trace_bind.
  destruct (st_shown_trace (chat_failure messages e) control) as [[rest Hrest] _].
  exists rest.
  destruct (result (st_shown (chat_failure messages e) control)) as [[m c]|];
    cbn [ret trace snd]; rewrite app_nil_r; exact Hrest.
Qed.

(** Wherever the script runner stops a turn, what the turn has done is
    the beginning of what it does when it runs through. *)
Lemma chat_turn_trace_under (control : script_control) (client : Client)
  (log : list ChatMessage) (prompt : string) :
  exists rest,
    trace (chat_turn RunsThrough client log prompt)
    = (trace (chat_turn control client log prompt) ++ rest)%list.
Proof.
  destruct control as [|[|[|n]]].
  - exists []. now rewrite app_nil_r.
  - eexists. reflexivity.
  - rewrite chat_turn_trace. eexists. reflexivity.
  - rewrite chat_turn_trace. unfold chat_turn. cbn zeta.
    set (messages := (log ++ [ {| role := "user"; content := prompt |} ])%list).
    cbn [st_shown emit Effects.bind st_static length Nat.ltb Nat.leb Nat.sub].
    rewrite Nat.sub_0_r.
    destruct (generate_content_stream client "gemini-2.5-flash"
                (get_api_contents messages) chat_config) as [e|chunks failure].
    + destruct (chat_failure_trace_under messages e (StopsAt n)) as [rest Hrest].
      exists rest. rewrite Hrest.
      destruct (Effects.bind (st_shown (chat_failure messages e) (StopsAt n)) _).
      reflexivity.
    + assert (Hstream :
                exists rest,
                  (map EStStreamChunk (chunk_texts chunks)
                   ++ match failure with
                      | None => []
                      | Some e => [EStError ("An error occurred: " ++ e)]
                      end)%list
                  = (trace (Effects.bind (st_shown (write_chunks chunks) (StopsAt n))
                              (fun written =>
                                 match written with
                                 | None => ret messages
                                 | Some (full_response, control) =>
                                     match failure with
                                     | None =>
                                         ret (messages
                                              ++ [ {| role := "model";
                                                      content := full_response |} ])%list
                                     | Some e =>
                                         Effects.bind
                                           (st_shown (chat_failure messages e) control)
                                           (fun handled =>
                                              match handled with
                                              | None => ret messages
                                              | Some (messages, _) => ret messages
                                              end)
                                     end
                                 end)) ++ rest)%list).
      { rewrite trace_bind, <- write_chunks_trace.
        destruct (st_shown_trace (write_chunks chunks) (StopsAt n)) as [[rest Hrest] Hall].
        destruct (result (st_shown (write_chunks chunks) (StopsAt n))) as [[full c]|].
        - rewrite Hall by discriminate. destruct failure as [e|].
          + destruct (chat_failure_trace_under messages e c) as [rest' Hrest'].
            exists rest'. now rewrite Hrest', app_assoc.
          + exists []. cbn [ret trace snd]. now rewrite !app_nil_r.
        - exists (rest ++ match failure with
                          | None => []
                          | Some e => [EStError ("An error occurred: " ++ e)]
                          end)%list.
          cbn [ret trace snd]. rewrite app_nil_r. rewrite Hrest at 1.
          now rewrite <- app_assoc. }
      destruct Hstream as [rest Hrest]. exists rest.
      destruct (Effects.bind (st_shown (write_chunks chunks) (StopsAt n)) _) as [r t].
      cbn [trace snd app] in *. destruct failure as [e|].
      * now rewrite <- Hrest.
      * rewrite app_nil_r in Hrest. now rewrite <- Hrest.
Qed.

(** Wherever the script runner stops a run of the page, what the run
    has done is the beginning of what it does when it runs through. *)
Lemma render_chat_page_trace_under (control : script_control) (gclient : option Client)
  (prompt : option string) (s : SessionState) :
  exists rest,
    trace (render_chat_page RunsThrough gclient prompt s)
    = (trace (render_chat_page control gclient prompt s) ++ rest)%list.
Proof.
  destruct gclient as [client|].
  - rewrite render_chat_page_trace. unfold render_chat_page, current_log.
    set (log := match messages s with Some m => m | None => [greeting] end).
    destruct (st_static 2 control) as [c1|]; [|eexists; reflexivity].
    rewrite trace_bind.
    destruct (st_shown_trace (display_history log) c1) as [[rest Hrest] Hall].
    destruct (result (st_shown (display_history log) c1)) as [[[] c2]|].
    + rewrite Hall by discriminate.
      destruct (st_static 1 c2) as [c3|];
        [|eexists; cbn [ret trace snd];
          rewrite (app_nil_r (trace (display_history log))); reflexivity].
      destruct prompt as [p|]; [|exists []; cbn [ret trace snd]; now rewrite !app_nil_r].
      destruct (truthy p); [|exists []; cbn [ret trace snd]; now rewrite !app_nil_r].
      destruct (chat_turn_trace_under c3 client log p) as [rest' Hrest'].
      exists rest'. rewrite trace_bind. cbn [ret trace snd].
      now rewrite app_nil_r, Hrest', app_assoc.
    + eexists. cbn [ret trace snd].
      rewrite (app_nil_r (trace (st_shown (display_history log) c1))).
      rewrite Hrest at 1. rewrite <- app_assoc. reflexivity.
  - unfold render_chat_page.
    destruct control as [|[|[|[|n]]]]; eexists; cbn; reflexivity.
Qed.

(** X3. A run of the chat page that the script runner lets run through
    sends one request when the client is there and a non-empty prompt
    came in, and none otherwise; it never waits: a chat turn is tried
    once, not retried.  A run that the script runner stops sends no
    more requests than that, and does not wait either. *)
Theorem chat_page_single_request (gclient : option Client) (prompt : option string)
  (s : SessionState) :
  requests (trace (render_chat_page RunsThrough gclient prompt s))
  = match gclient, prompt with
    | Some _, Some p => if truthy p then 1 else 0
    | _, _ => 0
    end
  /\ sleeps (trace (render_chat_page RunsThrough gclient prompt s)) = []
  /\ (forall control,
        requests (trace (render_chat_page control gclient prompt s))
        <= requests (trace (render_chat_page RunsThrough gclient prompt s))
        /\ sleeps (trace (render_chat_page control gclient prompt s)) = []).
Proof.
  assert (Hthrough :
            requests (trace (render_chat_page RunsThrough gclient prompt s))
            = match gclient, prompt with
              | Some _, Some p => if truthy p then 1 else 0
              | _, _ => 0
              end
            /\ sleeps (trace (render_chat_page RunsThrough gclient prompt s)) = []).
  { destruct gclient as [client|]; [|split; reflexivity].
    rewrite render_chat_page_trace, display_history_trace, requests_app, sleeps_app.
    rewrite requests_chat_writes by reflexivity.
    rewrite sleeps_chat_writes by reflexivity.
    destruct prompt as [p|]; [|split; reflexivity].
    destruct (truthy p); [|split; reflexivity].
    rewrite chat_turn_trace.
    destruct (generate_content_stream client "gemini-2.5-flash" _ chat_config)
      as [e|chunks [e|]].
    - split; reflexivity.
    - change (?a :: ?b :: ?l)%list with ([a; b] ++ l)%list.
      rewrite requests_app, sleeps_app, requests_app, sleeps_app,
        requests_stream_chunks, sleeps_stream_chunks.
      split; reflexivity.
    - change (?a :: ?b :: ?l)%list with ([a; b] ++ l)%list.
      rewrite requests_app, sleeps_app, requests_stream_chunks, sleeps_stream_chunks.
      split; reflexivity. }
  destruct Hthrough as [Hrequests Hsleeps].
  split; [exact Hrequests|]. split; [exact Hsleeps|].
  intro control.
  destruct (render_chat_page_trace_under control gclient prompt s) as [rest Hrest].
  rewrite Hrest in Hsleeps. rewrite Hrest, requests_app.
  rewrite sleeps_app in Hsleeps. apply app_eq_nil in Hsleeps.
  split; [lia|exact (proj1 Hsleeps)].
Qed.

Lemma shown_chunks_app (t1 t2 : list event) :
  shown_chunks (t1 ++ t2) = (shown_chunks t1 ++ shown_chunks t2)%list.
Proof. unfold shown_chunks. apply flat_map_app. Qed.

Lemma shown_chunks_stream (l : list string) : shown_chunks (map EStStreamChunk l) = l.
Proof. induction l as [|c l IH]; [reflexivity|]. cbn. now f_equal. Qed.

Lemma stream_requests_app (t1 t2 : list event) :
  stream_requests (t1 ++ t2) = (stream_requests t1 ++ stream_requests t2)%list.
Proof. unfold stream_requests. apply flat_map_app. Qed.

Lemma stream_requests_display (log : list ChatMessage) :
  stream_requests (trace (display_history log)) = [].
Proof.
  rewrite display_history_trace. induction log as [|m log IH]; [reflexivity|exact IH].
Qed.

Lemma stream_requests_chunks (l : list string) :
  stream_requests (map EStStreamChunk l) = [].
Proof. induction l as [|c l IH]; [reflexivity|exact IH]. Qed.

Lemma last_of_two {A : Type} (l : list A) (a b d : A) : last (l ++ [a; b]) d = b.
Proof.
  change (l ++ [a; b])%list with (l ++ ([a] ++ [b]))%list.
  rewrite app_assoc. apply last_last.
Qed.

(** X4. The chunks a turn that runs through shows while streaming are
    the non-empty chunk texts in arrival order, also when the stream
    breaks later.
    When the stream ends normally the stored reply is the concatenation
    of what was shown; when it breaks, the stored reply is the error
    description and the text shown so far is not kept. *)
Theorem shown_chunks_are_stored (client : Client) (log : list ChatMessage)
  (prompt : string) :
  let turn := chat_turn RunsThrough client log prompt in
  match generate_content_stream client "gemini-2.5-flash"
          (get_api_contents (log ++ [ {| role := "user"; content := prompt |} ]))
          chat_config
  with
  | StreamRaised e => shown_chunks (trace turn) = []
  | Streamed chunks failure =>
      shown_chunks (trace turn) = filter truthy (map text_of chunks)
      /\ match failure with
         | None =>
             last (result turn) greeting
             = {| role := "model";
                  content := String.concat "" (shown_chunks (trace turn)) |}
         | Some e =>
             last (result turn) greeting
             = {| role := "model"; content := "An error occurred: " ++ e |}
         end
  end.
Proof.
  intro turn. subst turn. rewrite chat_turn_trace, chat_turn_result.
  destruct (generate_content_stream client "gemini-2.5-flash"
              (get_api_contents (log ++ [ {| role := "user"; content := prompt |} ]))
              chat_config) as [e|chunks [e|]].
  - reflexivity.
  - split.
    + change (?a :: ?b :: ?l)%list with ([a; b] ++ l)%list.
      rewrite !shown_chunks_app, shown_chunks_stream, chunk_texts_filter.
      cbn. now rewrite app_nil_r.
    + apply last_of_two.
  - assert (Hshown : shown_chunks
                       (EStChatWrite "user" "🚶" prompt
                        :: EGenerateContentStream "gemini-2.5-flash"
                             (get_api_contents
                                (log ++ [ {| role := "user"; content := prompt |} ]))
                             chat_config
                        :: map EStStreamChunk (chunk_texts chunks))
                     = filter truthy (map text_of chunks)).
    { change (?a :: ?b :: ?l)%list with ([a; b] ++ l)%list.
      rewrite shown_chunks_app, shown_chunks_stream, chunk_texts_filter. reflexivity. }
    rewrite Hshown. split; [reflexivity|].
    rewrite last_of_two. now rewrite write_chunks_result.
Qed.

(** X6. The reply of a turn that ran through, be it the streamed text
    or an error description, goes back to the provider: the request of
    the next turn carries the whole log in order, one content per message with
    its role and text, ending with the earlier prompt, its reply as a
    [model] content, and the new prompt. *)
Theorem reply_is_sent_back (c1 c2 : Client) (p1 p2 : string) (s : SessionState) :
  truthy p1 = true ->
  truthy p2 = true ->
  let s1 := result (render_chat_page RunsThrough (Some c1) (Some p1) s) in
  exists reply,
    messages s1
    = Some (current_log s ++ [ {| role := "user"; content := p1 |};
                               {| role := "model"; content := reply |} ])%list
    /\ stream_requests (trace (render_chat_page RunsThrough (Some c2) (Some p2) s1))
       = [ (get_api_contents (current_log s)
            ++ [ {| content_role := "user"; parts := [ {| part_text := p1 |} ] |};
                 {| content_role := "model"; parts := [ {| part_text := reply |} ] |};
                 {| content_role := "user"; parts := [ {| part_text := p2 |} ] |} ])%list ].
Proof.
  intros H1 H2 s1. subst s1.
  rewrite render_chat_page_result, H1, chat_turn_result.
  eexists. split; [reflexivity|].
  rewrite render_chat_page_trace, H2, stream_requests_app, stream_requests_display.
  rewrite chat_turn_trace. unfold current_log at 1 2. cbn [messages app].
  set (contents := get_api_contents _).
  assert (Hrest : forall o,
             stream_requests
               match o with
               | StreamRaised e => [EStError ("An error occurred: " ++ e)]
               | Streamed chunks None => map EStStreamChunk (chunk_texts chunks)
               | Streamed chunks (Some e) =>
                   (map EStStreamChunk (chunk_texts chunks)
                    ++ [EStError ("An error occurred: " ++ e)])%list
               end = []).
  { intros [e|chunks [e|]]; [reflexivity| |].
    - now rewrite stream_requests_app, stream_requests_chunks.
    - apply stream_requests_chunks. }
  change (?a :: ?b :: ?l)%list with ([a; b] ++ l)%list.
  rewrite stream_requests_app, Hrest. cbn [stream_requests flat_map app].
  subst contents. unfold get_api_contents.
  rewrite <- app_assoc, !map_app. reflexivity.
Qed.

(** After a turn whose stream broke, the next request carries the error
    description as a model turn. *)
Lemma error_reply_is_sent_back :
  exists reply,
    messages (result (render_chat_page RunsThrough (Some Examples.broken_stream_client)
                        (Some "hi") new_session))
    = Some ([greeting] ++ [ {| role := "user"; content := "hi" |};
                            {| role := "model"; content := reply |} ])%list
    /\ stream_requests
         (trace (render_chat_page RunsThrough (Some Examples.hello_client) (Some "again")
                   (result (render_chat_page RunsThrough
                              (Some Examples.broken_stream_client)
                              (Some "hi") new_session))))
       = [ (get_api_contents [greeting]
            ++ [ {| content_role := "user"; parts := [ {| part_text := "hi" |} ] |};
                 {| content_role := "model"; parts := [ {| part_text := reply |} ] |};
                 {| content_role := "user";
                    parts := [ {| part_text := "again" |} ] |} ])%list ].
Proof.
  exact (reply_is_sent_back Examples.broken_stream_client Examples.hello_client
           "hi" "again" new_session eq_refl eq_refl).
Defined.

(** X7. A run of the chat page that runs through without a prompt, or
    with the empty prompt, only seeds the log: it stores the log it started from, sends
    nothing, and a second such run changes nothing. *)
Theorem run_without_input_only_seeds (client : Client) (prompt : option string)
  (s : SessionState) :
  prompt = None \/ prompt = Some "" ->
  let s' := result (render_chat_page RunsThrough (Some client) prompt s) in
  messages s' = Some (current_log s)
  /\ requests (trace (render_chat_page RunsThrough (Some client) prompt s)) = 0
  /\ result (render_chat_page RunsThrough (Some client) prompt s') = s'.
Proof.
  intros Hprompt s'. subst s'.
  assert (Hres : forall s0, result (render_chat_page RunsThrough (Some client) prompt s0)
                            = {| messages := Some (current_log s0) |})
    by (intro s0; rewrite render_chat_page_result; now destruct Hprompt as [->| ->]).
  rewrite !Hres. split; [reflexivity|]. split; [|reflexivity].
  rewrite render_chat_page_trace, display_history_trace, requests_app.
  rewrite requests_chat_writes by reflexivity.
  now destruct Hprompt as [->| ->].
Qed.

(** The empty prompt on a new session. *)
Lemma run_with_empty_prompt_only_seeds :
  messages (result (render_chat_page RunsThrough (Some Examples.hello_client) (Some "")
                      new_session))
  = Some [greeting]
  /\ requests (trace (render_chat_page RunsThrough (Some Examples.hello_client) (Some "")
                        new_session)) = 0.
Proof.
  destruct (run_without_input_only_seeds Examples.hello_client (Some "") new_session)
    as (H1 & H2 & _).
  - now right.
  - split; [exact H1|exact H2].
Defined.

(** ** Roles in the log *)

Lemma alternating_app (first other : string) (l1 l2 : list ChatMessage) :
  alternating first other l1 ->
  (if Nat.even (length l1) then alternating first other l2
   else alternating other first l2) ->
  alternating first other (l1 ++ l2).
Proof.
  revert first other. induction l1 as [|m l1 IH]; intros first other H1 H2.
  - exact H2.
  - destruct H1 as [Hm H1]. cbn [app alternating]. split; [exact Hm|].
    apply IH; [exact H1|].
    cbn [length] in H2. rewrite Nat.even_succ, <- Nat.negb_even in H2.
    destruct (Nat.even (length l1)); exact H2.
Qed.

Lemma reachable_log_alternates (s : SessionState) :
  reachable_unstopped s ->
  forall log, messages s = Some log ->
    alternating "model" "user" log /\ Nat.even (length log) = false.
Proof.
  induction 1 as [|client prompt s Hs IH]; intros log Hlog; [discriminate|].
  assert (Hcur : alternating "model" "user" (current_log s)
                 /\ Nat.even (length (current_log s)) = false).
  { unfold current_log. destruct (messages s) as [log0|]; [now apply IH|].
    split; [now split|reflexivity]. }
  destruct client as [client|]; [|apply IH; exact Hlog].
  rewrite render_chat_page_result in Hlog. cbn [messages] in Hlog.
  injection Hlog as <-.
  destruct prompt as [p|]; [|exact Hcur].
  destruct (truthy p); [|exact Hcur].
  rewrite chat_turn_result. destruct Hcur as [Halt Hodd]. split.
  - apply alternating_app; [exact Halt|]. rewrite Hodd. now repeat split.
  - rewrite length_app. cbn [length]. rewrite Nat.add_comm. cbn [Nat.add].
    now rewrite !Nat.even_succ_succ.
Qed.

Lemma no_two_models_snoc (log : list ChatMessage) (m : ChatMessage) :
  (role m =? "model")%string = false ->
  no_two_models (log ++ [m]) = no_two_models log.
Proof.
  intro Hm. induction log as [|m0 log IH]; [reflexivity|].
  destruct log as [|m1 log].
  - cbn [app no_two_models]. rewrite Hm. now rewrite andb_false_r.
  - change ((m0 :: m1 :: log) ++ [m])%list with (m0 :: ((m1 :: log) ++ [m]))%list.
    change (no_two_models (m0 :: (m1 :: log) ++ [m]))
      with (negb ((role m0 =? "model")%string && (role m1 =? "model")%string)
            && no_two_models ((m1 :: log) ++ [m])).
    now rewrite IH.
Qed.

Lemma no_two_models_reply (log : list ChatMessage) (u m : ChatMessage) :
  (role u =? "model")%string = false ->
  no_two_models (log ++ [u; m]) = no_two_models log.
Proof.
  intro Hu. induction log as [|m0 log IH].
  - cbn [app no_two_models]. rewrite Hu. reflexivity.
  - destruct log as [|m1 log].
    + cbn [app no_two_models]. rewrite Hu. now rewrite andb_false_r.
    + change ((m0 :: m1 :: log) ++ [u; m])%list
        with (m0 :: ((m1 :: log) ++ [u; m]))%list.
      change (no_two_models (m0 :: (m1 :: log) ++ [u; m]))
        with (negb ((role m0 =? "model")%string && (role m1 =? "model")%string)
              && no_two_models ((m1 :: log) ++ [u; m])).
      now rewrite IH.
Qed.

(** Wherever the script runner stops the runs, the log holds the roles
    [model] and [user] only, and no two [model] messages in a row. *)
Lemma reachable_log_roles (s : SessionState) :
  reachable s ->
  forall log, messages s = Some log ->
    (forall m, In m log -> role m = "model" \/ role m = "user")
    /\ no_two_models log = true.
Proof.
  induction 1 as [|control client prompt s Hs IH]; intros log Hlog; [discriminate|].
  assert (Hcur : (forall m, In m (current_log s) -> role m = "model" \/ role m = "user")
                 /\ no_two_models (current_log s) = true).
  { unfold current_log. destruct (messages s) as [log0|]; [now apply IH|].
    split; [|reflexivity]. intros m [<-|[]]. now left. }
  destruct client as [client|].
  - destruct (render_chat_page_result_under control client prompt s)
      as [H|[H|(control' & p & _ & _ & H)]]; rewrite H in Hlog.
    + now apply IH.
    + injection Hlog as <-. exact Hcur.
    + injection Hlog as <-. rewrite chat_turn_result_under.
      destruct Hcur as [Hroles Htwo].
      destruct (stops_within control' (turn_steps client (current_log s) p)); split.
      * intros m Hin. apply in_app_or in Hin.
        destruct Hin as [Hin|[<-|[]]]; [now apply Hroles|now right].
      * now rewrite no_two_models_snoc.
      * intros m Hin. apply in_app_or in Hin.
        destruct Hin as [Hin|[<-|[<-|[]]]]; [now apply Hroles|now right|now left].
      * now rewrite no_two_models_reply.
  - destruct (render_chat_page_appends control None prompt s) as [Hsame|[suffix Hsuffix]].
    + rewrite Hsame in Hlog. now apply IH.
    + unfold render_chat_page in Hlog, Hsuffix.
      destruct (st_static 2 control) as [c1|]; [|now apply IH].
      unfold Effects.bind in Hlog.
      destruct (st_shown (emit (EStError unavailable_message)) c1). now apply IH.
Qed.

Lemma alternating_roles (first other : string) (log : list ChatMessage) :
  alternating first other log ->
  forall m, In m log -> role m = first \/ role m = other.
Proof.
  revert first other. induction log as [|m0 log IH]; intros first other Halt m Hin.
  - contradiction.
  - destruct Halt as [Hm0 Halt]. destruct Hin as [<-|Hin]; [now left|].
    destruct (IH other first Halt m Hin); auto.
Qed.

(** X5. In every reachable session state, wherever the script runner
    stopped the runs, the log holds no other role than [model] and
    [user], and no two [model] messages in a row: a reply is stored
    only right after the prompt it answers.  When no run was stopped,
    the roles alternate, starting with [model] (the greeting, then a
    [user] message and a [model] message per turn), and the log holds
    an odd number of messages. *)
Theorem log_roles_alternate (s : SessionState) :
  reachable s ->
  forall log, messages s = Some log ->
    (forall m, In m log -> role m = "model" \/ role m = "user")
    /\ no_two_models log = true
    /\ (reachable_unstopped s ->
        alternating "model" "user" log
        /\ exists turns, length log = 1 + 2 * turns).
Proof.
  intros Hs log Hlog.
  destruct (reachable_log_roles s Hs log Hlog) as [Hroles Htwo].
  split; [exact Hroles|]. split; [exact Htwo|].
  intro Hun.
  destruct (reachable_log_alternates s Hun log Hlog) as [Halt Hodd].
  split; [exact Halt|].
  assert (Ho : Nat.Odd (length log))
    by (apply Nat.odd_spec; now rewrite <- Nat.negb_even, Hodd).
  destruct Ho as [k Hk]. exists k. lia.
Qed.

(** A turn stopped while its reply was shown, then a turn that ran
    through: two [user] messages in a row, and no two [model] messages
    in a row. *)
Lemma log_roles_after_stopped_turn :
  messages
    (result (render_chat_page RunsThrough (Some Examples.hello_client) (Some "again")
               (result (render_chat_page (StopsAt 7) (Some Examples.hello_client)
                          (Some "hi") new_session))))
  = Some [ greeting; {| role := "user"; content := "hi" |};
           {| role := "user"; content := "again" |};
           {| role := "model"; content := "Hello!" |} ]
  /\ no_two_models
       [ greeting; {| role := "user"; content := "hi" |};
         {| role := "user"; content := "again" |};
         {| role := "model"; content := "Hello!" |} ] = true
  /\ ~ alternating "model" "user"
         [ greeting; {| role := "user"; content := "hi" |};
           {| role := "user"; content := "again" |};
           {| role := "model"; content := "Hello!" |} ].
Proof.
  destruct (log_roles_alternate
              (result (render_chat_page RunsThrough (Some Examples.hello_client)
                         (Some "again")
                         (result (render_chat_page (StopsAt 7)
                                    (Some Examples.hello_client)
                                    (Some "hi") new_session)))))
    with (log := [ greeting; {| role := "user"; content := "hi" |};
                   {| role := "user"; content := "again" |};
                   {| role := "model"; content := "Hello!" |} ])
    as (_ & Htwo & _).
  - apply reachable_run, reachable_run, reachable_new.
  - reflexivity.
  - split; [reflexivity|]. split; [exact Htwo|].
    intros (_ & _ & H & _). discriminate H.
Defined.

(** ** Names in any case *)

Lemma lower_ascii_cases (c : ascii) :
  lower_ascii c = c
  \/ (97 <= nat_of_ascii (lower_ascii c) < 128 /\ 65 <= nat_of_ascii c <= 90).
Proof.
  unfold lower_ascii.
  destruct ((65 <=? nat_of_ascii c) && (nat_of_ascii c <=? 90)) eqn:E; [right|now left].
  apply andb_true_iff in E. destruct E as [E1 E2].
  apply Nat.leb_le in E1, E2.
  rewrite nat_ascii_embedding by lia. lia.
Qed.

Lemma lower_ascii_idem (c : ascii) : lower_ascii (lower_ascii c) = lower_ascii c.
Proof.
  destruct (lower_ascii_cases c) as [H|[H1 H2]]; [now rewrite !H|].
  unfold lower_ascii at 1.
  replace (nat_of_ascii (lower_ascii c) <=? 90) with false
    by (symmetry; apply Nat.leb_gt; lia).
  now rewrite andb_false_r.
Qed.

(** A character outside ASCII is the lower case of itself only. *)
Lemma lower_ascii_high (c b : ascii) :
  128 <= nat_of_ascii b -> lower_ascii c = b -> c = b.
Proof.
  intros Hb H. destruct (lower_ascii_cases c) as [Hc|[H1 H2]]; [congruence|].
  rewrite H in H1. lia.
Qed.

Lemma lower_plain (c : ascii) (rest : string) :
  (c =? "196")%char = false -> (c =? "226")%char = false ->
  lower (String c rest) = String (lower_ascii c) (lower rest).
Proof.
  intros H1 H2. cbn [lower]. rewrite H1, H2. cbn [andb].
  destruct rest as [|c2 [|c3 rest3]]; reflexivity.
Qed.

(** The three ways [lower] treats the head of a string. *)
Lemma lower_cases (c : ascii) (rest : string) :
  lower (String c rest) = String (lower_ascii c) (lower rest)
  \/ (exists rest2,
        c = "196"%char /\ rest = String "176" rest2
        /\ lower (String c rest) = String "i" (String "204" (String "135" (lower rest2))))
  \/ (exists rest3,
        c = "226"%char /\ rest = String "132" (String "170" rest3)
        /\ lower (String c rest) = String "k" (lower rest3)).
Proof.
  cbn [lower]. destruct rest as [|c2 rest2]; [now left|].
  destruct ((c =? "196") && (c2 =? "176"))%char eqn:E1.
  { apply andb_true_iff in E1. destruct E1 as [Ec Ec2].
    apply Ascii.eqb_eq in Ec, Ec2. subst. right. left. now exists rest2. }
  destruct rest2 as [|c3 rest3]; [now left|].
  destruct ((c =? "226") && (c2 =? "132") && (c3 =? "170"))%char eqn:E2; [|now left].
  apply andb_true_iff in E2. destruct E2 as [E2 Ec3].
  apply andb_true_iff in E2. destruct E2 as [Ec Ec2].
  apply Ascii.eqb_eq in Ec, Ec2, Ec3. subst. right. right. now exists rest3.
Qed.

(** The head of a lowered string. *)
Lemma lower_head (s : string) (h : ascii) (t : string) :
  lower s = String h t ->
  exists c rest, s = String c rest
                 /\ (h = "i"%char \/ h = "k"%char \/ h = lower_ascii c).
Proof.
  destruct s as [|c rest]; [discriminate|]. intro H. exists c, rest. split; [reflexivity|].
  destruct (lower_cases c rest) as [E|[(r2 & _ & _ & E)|(r3 & _ & _ & E)]];
    rewrite E in H; injection H as <- _; auto.
Qed.

Lemma lower_head_high (s : string) (b : ascii) (t : string) :
  128 <= nat_of_ascii b -> lower s = String b t -> exists rest, s = String b rest.
Proof.
  intros Hb H. destruct (lower_head s b t H) as (c & rest & -> & [E|[E|E]]).
  - subst b. cbn in Hb. lia.
  - subst b. cbn in Hb. lia.
  - symmetry in E. apply lower_ascii_high in E; [|exact Hb]. subst c. now exists rest.
Qed.

Lemma lower_idempotent_len (n : nat) :
  forall s, String.length s <= n -> lower (lower s) = lower s.
Proof.
  induction n as [|n IH]; intros s Hn.
  - destruct s; [reflexivity|cbn in Hn; lia].
  - destruct s as [|c rest]; [reflexivity|]. cbn [String.length] in Hn.
    destruct (lower_cases c rest)
      as [E|[(rest2 & -> & -> & E)|(rest3 & -> & -> & E)]]; rewrite E.
    + destruct (lower_cases (lower_ascii c) (lower rest))
        as [E'|[(r2 & Hc & Hr & _)|(r3 & Hc & Hr & _)]].
      * rewrite E', lower_ascii_idem, IH by lia. reflexivity.
      * exfalso. apply lower_ascii_high in Hc; [|cbn; lia]. subst c.
        apply lower_head_high in Hr; [|cbn; lia]. destruct Hr as [rest' ->].
        discriminate E.
      * exfalso. apply lower_ascii_high in Hc; [|cbn; lia]. subst c.
        pose proof Hr as Hr0.
        apply lower_head_high in Hr0; [|cbn; lia]. destruct Hr0 as [rest' ->].
        rewrite lower_plain in Hr by reflexivity. injection Hr as Hr.
        apply lower_head_high in Hr; [|cbn; lia]. destruct Hr as [rest'' ->].
        discriminate E.
    + cbn [String.length] in Hn.
      rewrite !lower_plain by reflexivity. rewrite IH by lia. reflexivity.
    + cbn [String.length] in Hn.
      rewrite lower_plain by reflexivity. rewrite IH by lia. reflexivity.
Qed.

Lemma lower_idempotent (s : string) : lower (lower s) = lower s.
Proof. apply (lower_idempotent_len (String.length s)). lia. Qed.

(** X8. [get_coords] ignores case: a name and its lower-case spelling
    get the same coordinates. *)
Theorem get_coords_ignores_case (city_country : string) :
  get_coords (lower city_country) = get_coords city_country.
Proof. unfold get_coords. now rewrite lower_idempotent. Qed.

Lemma contains_app_left (sub x y : string) :
  contains sub y = true -> contains sub (x ++ y) = true.
Proof.
  intro H. induction x as [|c x IH]; [exact H|].
  cbn [append contains]. rewrite IH. apply orb_true_r.
Qed.

Lemma contains_prefix (sub s : string) : prefix sub s = true -> contains sub s = true.
Proof. intro H. destruct s; cbn [contains]; now rewrite H. Qed.

(** Lowering a text does not reach into what follows an ASCII character. *)
Lemma lower_app_ascii_len (n : nat) :
  forall a c s, String.length a <= n -> nat_of_ascii c < 128 ->
    exists x, lower (a ++ String c s) = x ++ lower (String c s).
Proof.
  induction n as [|n IH]; intros a c s Hn Hc.
  - destruct a; [now exists ""|cbn in Hn; lia].
  - destruct a as [|c0 a]; [now exists ""|]. cbn [String.length append] in *.
    destruct (lower_cases c0 (a ++ String c s))
      as [E|[(rest2 & _ & Hr & E)|(rest3 & _ & Hr & E)]]; rewrite E.
    + destruct (IH a c s ltac:(lia) Hc) as [x Hx]. rewrite Hx.
      now exists (String (lower_ascii c0) x).
    + destruct a as [|c1 a]; cbn [append] in Hr; injection Hr as Hc1 Hr.
      * subst c. cbn in Hc. lia.
      * subst rest2. cbn [String.length] in Hn.
        destruct (IH a c s ltac:(lia) Hc) as [x Hx]. rewrite Hx.
        now exists (String "i" (String "204" (String "135" x))).
    + destruct a as [|c1 [|c2 a]]; cbn [append] in Hr.
      * injection Hr as Hc1 _. subst c. cbn in Hc. lia.
      * injection Hr as _ Hc2 _. subst c. cbn in Hc. lia.
      * injection Hr as _ _ Hr. subst rest3. cbn [String.length] in Hn.
        destruct (IH a c s ltac:(lia) Hc) as [x Hx]. rewrite Hx.
        now exists (String "k" x).
Qed.

Lemma lower_ascii_letter (c l : ascii) :
  nat_of_ascii l < 128 -> lower_ascii c = l ->
  nat_of_ascii c < 128 /\ (c =? "196")%char = false /\ (c =? "226")%char = false.
Proof.
  intros Hl H.
  assert (Hc : nat_of_ascii c < 128)
    by (destruct (lower_ascii_cases c) as [Hc|[_ Hc]]; [rewrite Hc in H; subst; lia|lia]).
  split; [exact Hc|].
  split; apply Ascii.eqb_neq; intros ->; cbn in Hc; lia.
Qed.

(** X9. [get_coords] looks for its keywords anywhere in the name:
    the letters g, o, a in a row, each in either case, inside any text
    (also inside a longer word, also beside another keyword) give the
    coordinates of Goa. *)
Theorem goa_matches_inside_any_text (before after : string) (g o a : ascii) :
  lower_ascii g = "g"%char ->
  lower_ascii o = "o"%char ->
  lower_ascii a = "a"%char ->
  get_coords (before ++ String g (String o (String a after)))
  = (PyFloat "15.3004", PyFloat "74.0855").
Proof.
  intros Hg Ho Ha.
  destruct (lower_ascii_letter g "g" ltac:(cbn; lia) Hg) as (Hgn & Hg1 & Hg2).
  destruct (lower_ascii_letter o "o" ltac:(cbn; lia) Ho) as (_ & Ho1 & Ho2).
  destruct (lower_ascii_letter a "a" ltac:(cbn; lia) Ha) as (_ & Ha1 & Ha2).
  unfold get_coords.
  destruct (lower_app_ascii_len (String.length before) before g
              (String o (String a after)) (le_n _) Hgn) as [x Hx].
  rewrite Hx, !lower_plain, Hg, Ho, Ha by assumption.
  rewrite contains_app_left; [reflexivity|].
  apply contains_prefix. now destruct (lower after).
Qed.

(** A name that holds another keyword, and [goa] inside a word. *)
Lemma goa_matches_inside_lagoa :
  get_coords "Delhi and LaGOa, Brazil" = (PyFloat "15.3004", PyFloat "74.0855").
Proof.
  apply (goa_matches_inside_any_text "Delhi and La" ", Brazil" "G" "O" "a");
    reflexivity.
Defined.

(** ** The success test of the plan page *)





(** ** The plan page *)

Import PlanPage.



Lemma page_requests_app (t1 t2 : list page_event) :
  page_requests (t1 ++ t2) = page_requests t1 + page_requests t2.
Proof. unfold page_requests. now rewrite flat_map_app, requests_app. Qed.

Lemma page_requests_core (t : list event) : page_requests (map Core t) = requests t.
Proof.
  unfold page_requests. f_equal.
  induction t as [|e t IH]; [reflexivity|]. cbn. now f_equal.
Qed.





(** The error a failed attempt records is one of the two descriptions,
    built from the text of the exception. *)
Lemma attempt_error_cases (k : nat) (outcome : api_outcome) (err : string) :
  attempt_result k outcome = inr err ->
  exists e, err = connection_error k e \/ err = format_error k e.
Proof.
  destruct outcome as [e|text]; cbn -[loads].
  - intro H. injection H as <-. exists e. now left.
  - destruct (loads text) as [v|e|e]; intro H; [discriminate| |];
      injection H as <-; exists e; [now right|now left].
Qed.





Lemma initialise_initialised (s : PlanState) :
  initialised s -> initialise s = s.
Proof.
  intros (Hd & _). unfold initialise. now destruct (destination s).
Qed.

Lemma show_stored_initialised (display_returns : pyvalue -> bool) (s : PlanState) :
  initialised s ->
  forall key, fst (show_stored display_returns s) <> MissingKey key.
Proof.
  intros (Hd & _ & _ & Hi) key. unfold show_stored.
  destruct (itinerary_data s) as [data|]; [|contradiction].
  destruct (truthy_value data); [|discriminate].
  destruct (display_returns data); [|discriminate].
  destruct (destination s); [discriminate|contradiction].
Qed.

(** X13. The first run of the plan page in a new session sets the four
    keys it uses; once they are set, every run and every click on a
    plan button keeps them set and no run ends on a missing key.  A
    click before the first run sets the destination alone, and the run
    that follows ends on the missing key [days]. *)
Theorem session_keys_stay_present (gclient : option Client)
  (display_returns : pyvalue -> bool) (form : Form) (city : string) (s : PlanState) :
  initialised (fst (fst (render_plan_trip_page gclient display_returns form new_session)))
  /\ (initialised s ->
      initialised (fst (fst (render_plan_trip_page gclient display_returns form s)))
      /\ (forall key,
            snd (fst (render_plan_trip_page gclient display_returns form s))
            <> MissingKey key)
      /\ initialised (plan_button_click city s))
  /\ render_plan_trip_page gclient display_returns form
       (plan_button_click city new_session)
     = (plan_button_click city new_session, MissingKey "days", []).
Proof.
  assert (Hrun : forall s0, initialised (initialise s0) ->
             initialised (fst (fst (render_plan_trip_page gclient display_returns
                                      form s0)))
             /\ (forall key,
                   snd (fst (render_plan_trip_page gclient display_returns form s0))
                   <> MissingKey key)).
  { intros s0 Hinit. unfold render_plan_trip_page.
    pose proof Hinit as (Hd & Hdays & Hint & Hi).
    destruct (days (initialise s0)) as [d|] eqn:Ed; [|contradiction].
    destruct (interests (initialise s0)) as [i|] eqn:Ei; [|contradiction].
    destruct (submitted form).
    - destruct (all_filled form); cbn [negb].
      + destruct (generate_student_itinerary gclient (destination_input form)
                    (days_input form) (interests_input form)) as [[status itin] t].
        destruct (contains "successfully" status);
          match goal with
          | |- context [show_stored ?d ?st] =>
              assert (Hst : initialised st) by (repeat split; discriminate);
              pose proof (show_stored_initialised d st Hst) as Hshow;
              destruct (show_stored d st) as [ending shown]
          end; cbn [fst snd] in *; split; assumption.
      + cbn [fst snd]. split; [exact Hinit|discriminate].
    - pose proof (show_stored_initialised display_returns (initialise s0) Hinit) as Hshow.
      destruct (show_stored display_returns (initialise s0)) as [ending shown].
      cbn [fst snd] in *. split; assumption. }
  split; [|split].
  - apply Hrun. repeat split; discriminate.
  - intro Hinit. destruct (Hrun s) as [H1 H2].
    + now rewrite initialise_initialised.
    + split; [exact H1|]. split; [exact H2|].
      destruct Hinit as (_ & Hdays & Hint & Hi). repeat split; try assumption.
      discriminate.
  - reflexivity.
Qed.

(** A click after the first run. *)
Lemma session_keys_after_first_run :
  initialised
    (plan_button_click "Goa, India"
       (fst (fst (render_plan_trip_page None (fun _ => true)
                    {| destination_input := ""; days_input := 3;
                       interests_input := ""; submitted := false |}
                    new_session)))).
Proof.
  apply (session_keys_stay_present None (fun _ => true)
           {| destination_input := ""; days_input := 3;
              interests_input := ""; submitted := false |}
           "Goa, India"
           (fst (fst (render_plan_trip_page None (fun _ => true)
                        {| destination_input := ""; days_input := 3;
                           interests_input := ""; submitted := false |}
                        new_session)))).
  repeat split; discriminate.
Defined.

(** X14. A click on a plan button changes the destination the trip
    tools are shown for and leaves the stored itinerary: the next run
    without a submission shows the itinerary generated earlier together
    with the tools for the city of the button. *)
Theorem button_changes_tools_not_itinerary (gclient : option Client)
  (display_returns : pyvalue -> bool) (form : Form) (city : string) (s : PlanState)
  (data : pyvalue) :
  initialised s ->
  itinerary_data s = Some data ->
  truthy_value data = true ->
  display_returns data = true ->
  submitted form = false ->
  render_plan_trip_page gclient display_returns form (plan_button_click city s)
  = (plan_button_click city s, Rendered, [DisplayItinerary data; RenderTripTools city]).
Proof.
  intros (_ & Hdays & Hint & _) Hdata Htruthy Hret Hsub.
  unfold render_plan_trip_page, initialise, plan_button_click, show_stored.
  cbn [destination days interests itinerary_data].
  destruct (days s); [|contradiction]. destruct (interests s); [|contradiction].
  now rewrite Hsub, Hdata, Htruthy, Hret.
Qed.

(** The itinerary of Goa beside the tools for Pondicherry. *)
Lemma button_shows_goa_with_other_tools :
  render_plan_trip_page None (fun _ => true)
    {| destination_input := "Goa, India"; days_input := 3;
       interests_input := "beaches, food"; submitted := false |}
    (plan_button_click "Pondicherry, India"
       {| destination := Some "Goa, India"; days := Some 3%Z;
          interests := Some "beaches, food";
          itinerary_data := Some Examples.goa_itinerary |})
  = (plan_button_click "Pondicherry, India"
       {| destination := Some "Goa, India"; days := Some 3%Z;
          interests := Some "beaches, food";
          itinerary_data := Some Examples.goa_itinerary |},
     Rendered,
     [DisplayItinerary Examples.goa_itinerary; RenderTripTools "Pondicherry, India"]).
Proof.
  apply (button_changes_tools_not_itinerary None (fun _ => true)
           {| destination_input := "Goa, India"; days_input := 3;
              interests_input := "beaches, food"; submitted := false |}
           "Pondicherry, India"
           {| destination := Some "Goa, India"; days := Some 3%Z;
              interests := Some "beaches, food";
              itinerary_data := Some Examples.goa_itinerary |}
           Examples.goa_itinerary).
  - repeat split; discriminate.
  - reflexivity.
  - reflexivity.
  - reflexivity.
  - reflexivity.
Defined.

(** X15. A run of the plan page sends at most [MAX_RETRIES] requests to
    the provider, and none unless a form with all fields filled was
    submitted and the client is there. *)
Theorem plan_page_requests (gclient : option Client)
  (display_returns : pyvalue -> bool) (form : Form) (s : PlanState) :
  page_requests (snd (render_plan_trip_page gclient display_returns form s))
  <= MAX_RETRIES
  /\ (submitted form = false \/ all_filled form = false \/ gclient = None ->
      page_requests (snd (render_plan_trip_page gclient display_returns form s)) = 0).
Proof.
  assert (Hshow : forall st,
             page_requests (snd (show_stored display_returns st)) = 0).
  { intro st. unfold show_stored. destruct (itinerary_data st) as [data|]; [|reflexivity].
    destruct (truthy_value data); [|reflexivity].
    destruct (display_returns data); [|reflexivity].
    now destruct (destination st). }
  assert (Hgen : requests (trace (generate_student_itinerary gclient
                                    (destination_input form) (days_input form)
                                    (interests_input form))) <= MAX_RETRIES
                 /\ (gclient = None ->
                     requests (trace (generate_student_itinerary gclient
                                        (destination_input form) (days_input form)
                                        (interests_input form))) = 0)).
  { split; [apply default_attempts_at_most_five|now intros ->]. }
  unfold render_plan_trip_page.
  destruct (days (initialise s)); [|split; [cbn; lia|reflexivity]].
  destruct (interests (initialise s)); [|split; [cbn; lia|reflexivity]].
  destruct (submitted form).
  - destruct (all_filled form); cbn [negb]; [|split; [cbn; lia|reflexivity]].
    destruct (generate_student_itinerary gclient (destination_input form)
                (days_input form) (interests_input form)) as [[status itin] t].
    cbn [trace snd] in Hgen. destruct Hgen as [Hle Hnone].
    destruct (contains "successfully" status);
      match goal with
      | |- context [show_stored ?d ?st] =>
          pose proof (Hshow st) as Hs0; destruct (show_stored d st) as [ending shown]
      end; cbn [fst snd] in *;
      rewrite page_requests_app, page_requests_core;
      match goal with
      | |- context [page_requests (?b :: ?sh)] =>
          change (page_requests (b :: sh)) with (page_requests sh)
      end;
      rewrite Hs0, Nat.add_0_r;
      (split; [exact Hle|intros [H|[H|H]]; [discriminate|discriminate|now apply Hnone]]).
  - pose proof (Hshow (initialise s)) as Hs0.
    destruct (show_stored display_returns (initialise s)) as [ending shown].
    cbn [fst snd] in *. rewrite Hs0. split; [lia|reflexivity].
Qed.
